(** * pricechartingtool: the longitude engine and the weekly aggregator

    A shallow embedding of

    - [misc/EphemerisGeneration/cycleHuntingGeneric/makeFilledMasterEphemeris_2p.py]
      (functions [doCalculationsForColumn] and [doCalculationsForColumns], and
      the script around them: the read loop, the dictionaries, the 132
      calculation blocks and the write loop), and
    - [misc/DataFormatting/convertDailyToWeekly.py] (the read/aggregate loop
      and the text of the output file),

    followed by the properties of these programs.

    Python's [float] is an IEEE-754 binary64 number.  The code is embedded
    once, over an interface [PyFloat] of the handful of float operations the
    scripts use, and the interface has two instances: [binary64] (Rocq's
    primitive floats, which are binary64 with round-to-nearest-even, as in
    CPython) and [exact] (the rationals [Q], i.e. the same operations without
    rounding).  Concrete runs are evaluated at both; the general theorems are
    about the exact instance, unless they hold at every instance. *)

From Stdlib Require Import ZArith QArith Qround Qabs Lqa Lia Bool Ascii String List.
From Stdlib Require Import Floats.
From Stdlib Require Import DecimalString.
Import ListNotations.

Set Implicit Arguments.

(** ** Python values *)

(** The float operations used by the two scripts. [of_int n] is the float a
    Python [int] operand is converted to in mixed arithmetic ([x - 330]) and
    the value of a literal such as [360.0]. *)
Class PyFloat (F : Type) := {
  fadd : F -> F -> F;       (* a + b *)
  fsub : F -> F -> F;       (* a - b *)
  flt : F -> F -> bool;     (* a < b *)
  fge : F -> F -> bool;     (* a >= b *)
  of_int : Z -> F
}.

Definition fgt {F} `{PyFloat F} (a b : F) : bool := flt b a.   (* a > b *)

Definition Qltb (a b : Q) : bool := negb (Qle_bool b a).

#[export] Instance exact : PyFloat Q := {|
  fadd := Qplus;
  fsub := Qminus;
  flt := Qltb;
  fge := fun a b => Qle_bool b a;
  of_int := inject_Z
|}.

(** [float(n)] for an [int] of magnitude below [2^63]. *)
Definition float_of_Z (n : Z) : float :=
  match n with
  | Z0 => PrimFloat.of_uint63 (Uint63.of_Z 0)
  | Zpos _ => PrimFloat.of_uint63 (Uint63.of_Z n)
  | Zneg p => PrimFloat.opp (PrimFloat.of_uint63 (Uint63.of_Z (Zpos p)))
  end.

#[export] Instance binary64 : PyFloat float := {|
  fadd := PrimFloat.add;
  fsub := PrimFloat.sub;
  flt := PrimFloat.ltb;
  fge := fun a b => PrimFloat.leb b a;
  of_int := float_of_Z
|}.

(** The exceptions the scripts can raise and never catch. *)
Inductive exn : Type :=
| FloatValueError (text : string)  (* ValueError: could not convert string to float: <repr text> *)
| IntValueError (text : string)    (* ValueError: invalid literal for int() with base 10: <repr text> *)
| DateValueError (year month day : Z)  (* ValueError raised by datetime.date(year, month, day) *)
| IndexError.                      (* IndexError: list index out of range *)

(** How a run of a script (or of one of its functions) ends.  [OutOfFuel] is
    not a Python outcome: it marks a [while] loop that did not finish within
    the iterations the model was given. *)
Inductive outcome (A : Type) : Type :=
| Ok (a : A)
| SysExit (printed : string)    (* print(printed); sys.exit(1) *)
| Uncaught (e : exn)            (* traceback, exit status 1 *)
| OutOfFuel.

Arguments Ok {A} a.
Arguments SysExit {A} printed.
Arguments Uncaught {A} e.
Arguments OutOfFuel {A}.

Definition bind {A B} (m : outcome A) (k : A -> outcome B) : outcome B :=
  match m with
  | Ok a => k a
  | SysExit s => SysExit s
  | Uncaught e => Uncaught e
  | OutOfFuel => OutOfFuel
  end.

Notation "x <- m ;; k" := (bind m (fun x => k))
  (at level 61, m at next level, right associativity).

Definition or_raise {A} (o : option A) (e : exn) : outcome A :=
  match o with
  | Some a => Ok a
  | None => Uncaught e
  end.

Definition or_diverge {A} (o : option A) : outcome A :=
  match o with
  | Some a => Ok a
  | None => OutOfFuel
  end.

(** ** The longitude engine: makeFilledMasterEphemeris_2p.py *)

Module Ephemeris.

Section Engine.

Context {F : Type} `{PyFloat F}.

(** [maximumIncrement = 330] *)
Definition maximumIncrement : Z := 330.

(** [while prevCalculatedValue < currCalculatedValue - maximumIncrement:
        currCalculatedValue -= 360.0]
    [fuel] bounds the number of iterations; [None] when they do not suffice. *)
Fixpoint while_decrease (fuel : nat) (prevCalculatedValue currCalculatedValue : F)
  {struct fuel} : option F :=
  if flt prevCalculatedValue (fsub currCalculatedValue (of_int maximumIncrement)) then
    match fuel with
    | O => None
    | S fuel' =>
        while_decrease fuel' prevCalculatedValue (fsub currCalculatedValue (of_int 360))
    end
  else Some currCalculatedValue.

(** [while prevCalculatedValue >= currCalculatedValue + maximumIncrement:
        currCalculatedValue += 360.0] *)
Fixpoint while_increase (fuel : nat) (prevCalculatedValue currCalculatedValue : F)
  {struct fuel} : option F :=
  if fge prevCalculatedValue (fadd currCalculatedValue (of_int maximumIncrement)) then
    match fuel with
    | O => None
    | S fuel' =>
        while_increase fuel' prevCalculatedValue (fadd currCalculatedValue (of_int 360))
    end
  else Some currCalculatedValue.

(** The [if prevCalculatedValue == None: ... elif ... elif ... else] block,
    lines 163-179 and, identically, 261-277. *)
Definition adjust (fuel : nat) (prevCalculatedValue : option F) (currCalculatedValue : F)
  : option F :=
  match prevCalculatedValue with
  | None => Some currCalculatedValue
  | Some prev =>
      if flt prev (fsub currCalculatedValue (of_int maximumIncrement)) then
        while_decrease fuel prev currCalculatedValue
      else if fge prev (fadd currCalculatedValue (of_int maximumIncrement)) then
        while_increase fuel prev currCalculatedValue
      else Some currCalculatedValue
  end.

(** The body of the [for] loop of [doCalculationsForColumn] on the column's
    float values: the list of the values it appends, row by row. *)
Fixpoint columnValues (fuel : nat) (prevCalculatedValue : option F)
  (planetLongitudes : list F) : option (list F) :=
  match planetLongitudes with
  | [] => Some []
  | planetLongitude :: rest =>
      match adjust fuel prevCalculatedValue planetLongitude with
      | None => None
      | Some currCalculatedValue =>
          match columnValues fuel (Some currCalculatedValue) rest with
          | None => None
          | Some out => Some (currCalculatedValue :: out)
          end
      end
  end.


(** *** The two functions on the rows of the spreadsheet

    [listOfDataValues] is a list of rows, each the list of the text fields of
    one input line.  [py_float] is Python's [float()] on a [str] ([None] when
    it raises [ValueError]) and [py_str] is ["{}".format(x)] on a float; both
    are builtins of the language, not code of the repository, and the
    development is parametric in them. *)

Variable py_float : string -> option F.
Variable py_str : F -> string.

(** [float(listOfDataValues[i][column])] *)
Definition cell_value (row : list string) (column : nat) : outcome F :=
  cell <- or_raise (nth_error row column) IndexError ;;
  or_raise (py_float cell) (FloatValueError cell).

(** The [for i in range(len(listOfDataValues))] loop of
    [doCalculationsForColumn], from row [i] on. *)
Fixpoint forColumn (fuel : nat) (prevCalculatedValue : option F)
  (listOfDataValues : list (list string)) (planetColumn : nat)
  : outcome (list (list string)) :=
  match listOfDataValues with
  | [] => Ok []
  | row :: rest =>
      planetLongitude <- cell_value row planetColumn ;;
      currCalculatedValue <-
        or_diverge (adjust fuel prevCalculatedValue planetLongitude) ;;
      rest' <- forColumn fuel (Some currCalculatedValue) rest planetColumn ;;
      Ok ((row ++ [py_str currCalculatedValue]) :: rest')
  end.

Definition doCalculationsForColumn (fuel : nat)
  (listOfDataValues : list (list string)) (planetColumn : nat)
  : outcome (list (list string)) :=
  forColumn fuel None listOfDataValues planetColumn.

(** The loop of [doCalculationsForColumns]. *)
Fixpoint forColumns (fuel : nat) (prevCalculatedValue : option F)
  (listOfDataValues : list (list string))
  (fasterPlanetColumn slowerPlanetColumn : nat)
  : outcome (list (list string)) :=
  match listOfDataValues with
  | [] => Ok []
  | row :: rest =>
      fasterPlanetLongitude <- cell_value row fasterPlanetColumn ;;
      slowerPlanetLongitude <- cell_value row slowerPlanetColumn ;;
      currCalculatedValue <-
        or_diverge
          (adjust fuel prevCalculatedValue
             (fsub (fadd fasterPlanetLongitude (of_int 360)) slowerPlanetLongitude)) ;;
      rest' <- forColumns fuel (Some currCalculatedValue) rest
                 fasterPlanetColumn slowerPlanetColumn ;;
      Ok ((row ++ [py_str currCalculatedValue]) :: rest')
  end.

Definition doCalculationsForColumns (fuel : nat)
  (listOfDataValues : list (list string))
  (fasterPlanetColumn slowerPlanetColumn : nat)
  : outcome (list (list string)) :=
  forColumns fuel None listOfDataValues fasterPlanetColumn slowerPlanetColumn.





(** The rows with one more cell each. *)
Definition appendColumn (rows : list (list string)) (cells : list string)
  : list (list string) :=
  map (fun rc => fst rc ++ [snd rc]) (combine rows cells).



End Engine.

(** *** The vocabulary of the claims, on exact values *)

Section Vocabulary.

Local Open Scope Q_scope.





End Vocabulary.

End Ephemeris.


(** ** Python strings *)

Module PyStr.

Local Open Scope string_scope.

(** [str.isspace] on the ASCII range: TAB, LF, VT, FF, CR, FS, GS, RS, US
    and the space. *)
Definition isspace (c : ascii) : bool :=
  let n := nat_of_ascii c in
  (((9 <=? n) && (n <=? 13)) || ((28 <=? n) && (n <=? 32)))%nat.

Fixpoint lstrip (s : string) : string :=
  match s with
  | EmptyString => EmptyString
  | String c rest => if isspace c then lstrip rest else s
  end.

Fixpoint rstrip (s : string) : string :=
  match s with
  | EmptyString => EmptyString
  | String c rest =>
      match rstrip rest with
      | EmptyString => if isspace c then EmptyString else String c EmptyString
      | rest' => String c rest'
      end
  end.

(** [s.strip()] *)
Definition strip (s : string) : string := rstrip (lstrip s).

(** [s.split(sep)] for a one-character separator. *)
Fixpoint split (sep : ascii) (s : string) : list string :=
  match s with
  | EmptyString => [EmptyString]
  | String c rest =>
      if Ascii.eqb c sep then EmptyString :: split sep rest
      else
        match split sep rest with
        | [] => [String c EmptyString]
        | field :: fields => String c field :: fields
        end
  end.

(** [s[a:b]] for [0 <= a <= b]. *)
Definition slice (a b : nat) (s : string) : string := substring a (b - a) s.

End PyStr.

(** ** The weekly aggregator: convertDailyToWeekly.py *)

Module Weekly.

Import PyStr.

Local Open Scope string_scope.

(** [linesToSkip = 1] *)
Definition linesToSkip : nat := 1.

Section Aggregator.

Context {F : Type} `{PyFloat F}.

(** Builtins of the language, in which the development is parametric:
    [float()] and [int()] on a [str] ([None] when they raise [ValueError]),
    and [datetime.date(year, month, day).isocalendar()] ([None] when
    [datetime.date] raises [ValueError]). *)
Variable py_float : string -> option F.
Variable py_int : string -> option Z.
Variable py_isocalendar : Z -> Z -> Z -> option (Z * Z * Z).

(** The [currentWeek...] globals. *)
Record week : Type := {
  currentWeekHasValues : bool;
  currentWeekDateStr : string;
  currentWeekOpen : F;
  currentWeekHigh : F;
  currentWeekLow : F;
  currentWeekClose : F;
  currentWeekVolume : Z;
  currentWeekOpenInt : Z;
  currentWeekIsoYearNumber : Z;
  currentWeekIsoWeekNumber : Z
}.

(** A converted line: the values that
    ["{},{},{},{},{},{},{}".format(...)] turns into one line of text. *)
Record convertedLine : Type := {
  lineDateStr : string;
  lineOpen : F;
  lineHigh : F;
  lineLow : F;
  lineClose : F;
  lineVolume : Z;
  lineOpenInt : Z
}.

(** A line of the output file. *)
Inductive outputLine : Type :=
| headerLine       (* "Date","Open","High","Low","Close","Volume","OpenInt" *)
| weekLine (l : convertedLine).

Definition initialWeek : week := {|
  currentWeekHasValues := false;
  currentWeekDateStr := "";
  currentWeekOpen := of_int (-1);
  currentWeekHigh := of_int (-1);
  currentWeekLow := of_int (-1);
  currentWeekClose := of_int (-1);
  currentWeekVolume := -1;
  currentWeekOpenInt := -1;
  currentWeekIsoYearNumber := -1;
  currentWeekIsoWeekNumber := -1
|}.

(** The line of text built from the [currentWeek...] values. *)
Definition formatWeek (w : week) : convertedLine := {|
  lineDateStr := currentWeekDateStr w;
  lineOpen := currentWeekOpen w;
  lineHigh := currentWeekHigh w;
  lineLow := currentWeekLow w;
  lineClose := currentWeekClose w;
  lineVolume := currentWeekVolume w;
  lineOpenInt := currentWeekOpenInt w
|}.

(** [list.sort()] on floats: a stable insertion sort by [<]. *)
Fixpoint insert (x : F) (l : list F) : list F :=
  match l with
  | [] => [x]
  | y :: l' => if flt x y then x :: l else y :: insert x l'
  end.

Definition sort (l : list F) : list F :=
  fold_left (fun sorted x => insert x sorted) l [].

(** The state of the read loop: the line counter [i], the current week and
    [convertedLines]. *)
Record state : Type := {
  i : nat;
  currentWeek : week;
  convertedLines : list convertedLine
}.

Definition initialState : state :=
  {| i := 0; currentWeek := initialWeek; convertedLines := [] |}.

Definition fieldsError : string := "Error: Line does not have 7 data fields".

Definition dateStrError (dateStr : string) : string :=
  "Error: dateStr is not the expected number of characters: " ++ dateStr.

Definition orderError (line : string) : string :=
  "Error: The input file is supposed to be in chronological order!  Failed at line: "
  ++ line.

(** [currentWeek... = ...] from the fields of a row that starts a week. *)
Definition newWeek (dateStr openStr highStr lowStr closeStr volumeStr openIntStr : string)
  (isoYearNumber isoWeekNumber : Z) : outcome week :=
  open <- or_raise (py_float openStr) (FloatValueError openStr) ;;
  high <- or_raise (py_float highStr) (FloatValueError highStr) ;;
  low <- or_raise (py_float lowStr) (FloatValueError lowStr) ;;
  close <- or_raise (py_float closeStr) (FloatValueError closeStr) ;;
  volume <- or_raise (py_int volumeStr) (IntValueError volumeStr) ;;
  openInt <- or_raise (py_int openIntStr) (IntValueError openIntStr) ;;
  Ok {| currentWeekHasValues := true;
        currentWeekDateStr := dateStr;
        currentWeekOpen := open;
        currentWeekHigh := high;
        currentWeekLow := low;
        currentWeekClose := close;
        currentWeekVolume := volume;
        currentWeekOpenInt := openInt;
        currentWeekIsoYearNumber := isoYearNumber;
        currentWeekIsoWeekNumber := isoWeekNumber |}.

(** The branch "the new date is in the same week as currentWeek". *)
Definition sameWeek (w : week) (openStr highStr lowStr closeStr volumeStr openIntStr : string)
  : outcome week :=
  o <- or_raise (py_float openStr) (FloatValueError openStr) ;;
  h <- or_raise (py_float highStr) (FloatValueError highStr) ;;
  l <- or_raise (py_float lowStr) (FloatValueError lowStr) ;;
  c <- or_raise (py_float closeStr) (FloatValueError closeStr) ;;
  let priceValues := sort [o; h; l; c] in
  let smallestValue := hd o priceValues in
  let largestValue := last priceValues o in
  let low := if flt smallestValue (currentWeekLow w) then smallestValue
             else currentWeekLow w in
  let high := if fgt largestValue (currentWeekHigh w) then largestValue
              else currentWeekHigh w in
  close <- or_raise (py_float closeStr) (FloatValueError closeStr) ;;
  volume <- or_raise (py_int volumeStr) (IntValueError volumeStr) ;;
  openInt <- or_raise (py_int openIntStr) (IntValueError openIntStr) ;;
  Ok {| currentWeekHasValues := currentWeekHasValues w;
        currentWeekDateStr := currentWeekDateStr w;
        currentWeekOpen := currentWeekOpen w;
        currentWeekHigh := high;
        currentWeekLow := low;
        currentWeekClose := close;
        currentWeekVolume := (currentWeekVolume w + volume)%Z;
        currentWeekOpenInt := openInt;
        currentWeekIsoYearNumber := currentWeekIsoYearNumber w;
        currentWeekIsoWeekNumber := currentWeekIsoWeekNumber w |}.

(** The body of [for line in f], for a line that passes
    [i >= linesToSkip and line.strip() != ""]. *)
Definition dataLine (st : state) (line : string) : outcome state :=
  let fields := split "," line in
  if negb (List.length fields =? 7)%nat then SysExit fieldsError
  else
    let dateStr := strip (nth 0 fields "") in
    let openStr := strip (nth 1 fields "") in
    let highStr := strip (nth 2 fields "") in
    let lowStr := strip (nth 3 fields "") in
    let closeStr := strip (nth 4 fields "") in
    let volumeStr := strip (nth 5 fields "") in
    let openIntStr := strip (nth 6 fields "") in
    if negb (String.length dateStr =? 10)%nat then SysExit (dateStrError dateStr)
    else
      let monthStr := slice 0 2 dateStr in
      let dayStr := slice 3 5 dateStr in
      let yearStr := slice 6 10 dateStr in
      month <- or_raise (py_int monthStr) (IntValueError monthStr) ;;
      day <- or_raise (py_int dayStr) (IntValueError dayStr) ;;
      year <- or_raise (py_int yearStr) (IntValueError yearStr) ;;
      iso <- or_raise (py_isocalendar year month day) (DateValueError year month day) ;;
      let '(isoYearNumber, isoWeekNumber, isoWeekdayNumber) := iso in
      let w := currentWeek st in
      if negb (currentWeekHasValues w) then
        w' <- newWeek dateStr openStr highStr lowStr closeStr volumeStr openIntStr
                isoYearNumber isoWeekNumber ;;
        (* continue: [i += 1] is skipped *)
        Ok {| i := i st; currentWeek := w'; convertedLines := convertedLines st |}
      else if (isoYearNumber <? currentWeekIsoYearNumber w)%Z then
        SysExit (orderError line)
      else if ((isoYearNumber =? currentWeekIsoYearNumber w)
               && (isoWeekNumber <? currentWeekIsoWeekNumber w))%Z then
        SysExit (orderError line)
      else if ((isoYearNumber =? currentWeekIsoYearNumber w)
               && (isoWeekNumber =? currentWeekIsoWeekNumber w))%Z then
        w' <- sameWeek w openStr highStr lowStr closeStr volumeStr openIntStr ;;
        Ok {| i := S (i st); currentWeek := w'; convertedLines := convertedLines st |}
      else if (((isoYearNumber =? currentWeekIsoYearNumber w)
                && (isoWeekNumber >? currentWeekIsoWeekNumber w))
               || (isoYearNumber >? currentWeekIsoYearNumber w))%Z then
        let lines := (convertedLines st ++ [formatWeek w])%list in
        w' <- newWeek dateStr openStr highStr lowStr closeStr volumeStr openIntStr
                isoYearNumber isoWeekNumber ;;
        Ok {| i := S (i st); currentWeek := w'; convertedLines := lines |}
      else
        (* print("DEBUG: Should never get here.") *)
        Ok {| i := S (i st); currentWeek := w; convertedLines := convertedLines st |}.

(** One iteration of [for line in f]. *)
Definition readLine (st : state) (line : string) : outcome state :=
  if (linesToSkip <=? i st)%nat && negb (strip line =? "") then dataLine st line
  else Ok {| i := S (i st); currentWeek := currentWeek st;
             convertedLines := convertedLines st |}.

Fixpoint readLines (st : state) (f : list string) : outcome state :=
  match f with
  | [] => Ok st
  | line :: rest => st' <- readLine st line ;; readLines st' rest
  end.

(** The script from "Read input file" on: [Ok lines] is the run that reaches
    [open(outputFile, "w")] and writes [lines]; every other outcome leaves
    the script before that statement. *)
Definition main (f : list string) : outcome (list outputLine) :=
  st <- readLines initialState f ;;
  let lines :=
    if currentWeekHasValues (currentWeek st)
    then (convertedLines st ++ [formatWeek (currentWeek st)])%list
    else convertedLines st in
  Ok (headerLine :: map weekLine lines).

End Aggregator.

Arguments week F : clear implicits.
Arguments convertedLine F : clear implicits.
Arguments outputLine F : clear implicits.
Arguments state F : clear implicits.

End Weekly.

(** ** The vocabulary of the claims about the aggregator *)

Module WeeklyRows.

Import PyStr Weekly.

Local Open Scope string_scope.

Section Rows.

Context {F : Type} `{PyFloat F}.
Variable py_float : string -> option F.
Variable py_int : string -> option Z.
Variable py_isocalendar : Z -> Z -> Z -> option (Z * Z * Z).

(** A daily row: the values a well-formed line of the input stands for. *)
Record dailyRow : Type := {
  rowLine : string;
  rowDateStr : string;
  rowDate : Z * Z * Z;        (* year, month, day *)
  rowIsoYear : Z;
  rowIsoWeek : Z;
  rowOpen : F;
  rowHigh : F;
  rowLow : F;
  rowClose : F;
  rowVolume : Z;
  rowOpenInt : Z
}.

(** The row of a line with seven fields, a date of ten characters that is a
    date of the calendar, four floats and two integers; [None] for any other
    line. *)
Definition parseRow (line : string) : option dailyRow :=
  let fields := split "," line in
  if (length fields =? 7)%nat then
    let dateStr := strip (nth 0 fields "") in
    if (String.length dateStr =? 10)%nat then
      match py_int (slice 0 2 dateStr), py_int (slice 3 5 dateStr),
            py_int (slice 6 10 dateStr) with
      | Some month, Some day, Some year =>
          match py_isocalendar year month day with
          | Some (isoYear, isoWeek, _) =>
              match py_float (strip (nth 1 fields "")),
                    py_float (strip (nth 2 fields "")),
                    py_float (strip (nth 3 fields "")),
                    py_float (strip (nth 4 fields "")),
                    py_int (strip (nth 5 fields "")),
                    py_int (strip (nth 6 fields "")) with
              | Some o, Some h, Some l, Some c, Some v, Some oi =>
                  Some {| rowLine := line; rowDateStr := dateStr;
                          rowDate := (year, month, day);
                          rowIsoYear := isoYear; rowIsoWeek := isoWeek;
                          rowOpen := o; rowHigh := h; rowLow := l; rowClose := c;
                          rowVolume := v; rowOpenInt := oi |}
              | _, _, _, _, _, _ => None
              end
          | None => None
          end
      | _, _, _ => None
      end
    else None
  else None.

(** The lines the loop treats as data: the non-blank ones after the first. *)
Definition blank (line : string) : bool := strip line =? "".

Definition entries (f : list string) : list string :=
  filter (fun line => negb (blank line)) (tl f).

(** The data lines of the file are well formed and stand for [rows]. *)
Definition dataRows (f : list string) (rows : list dailyRow) : Prop :=
  Forall2 (fun line r => parseRow line = Some r) (entries f) rows.

(** A data line with a wrong number of fields or a date that has not ten
    characters. *)
Definition wrongFieldCount (line : string) : bool :=
  negb (length (split "," line) =? 7)%nat.

Definition wrongDateLength (line : string) : bool :=
  negb (String.length (strip (nth 0 (split "," line) "")) =? 10)%nat.

Definition malformed (line : string) : bool :=
  negb (blank line) && (wrongFieldCount line || wrongDateLength line).

(** The ISO (year, week) pair of a row, and the order of the pairs. *)
Definition key (r : dailyRow) : Z * Z := (rowIsoYear r, rowIsoWeek r).

Definition key_lt (k1 k2 : Z * Z) : Prop :=
  (fst k1 < fst k2 \/ (fst k1 = fst k2 /\ snd k1 < snd k2))%Z.

Definition key_le (k1 k2 : Z * Z) : Prop := key_lt k1 k2 \/ k1 = k2.

Definition key_eqb (k1 k2 : Z * Z) : bool :=
  ((fst k1 =? fst k2) && (snd k1 =? snd k2))%Z.

(** The order of the calendar dates (year, month, day). *)
Definition date_le (d1 d2 : Z * Z * Z) : Prop :=
  let '(y1, m1, day1) := d1 in
  let '(y2, m2, day2) := d2 in
  (y1 < y2 \/ (y1 = y2 /\ (m1 < m2 \/ (m1 = m2 /\ day1 <= day2))))%Z.

(** No row is of an earlier date than the row before it. *)
Fixpoint datesInOrder (rows : list dailyRow) : Prop :=
  match rows with
  | [] => True
  | r1 :: rest =>
      match rest with
      | [] => True
      | r2 :: _ => date_le (rowDate r1) (rowDate r2)
      end /\ datesInOrder rest
  end.

(** No row is of an earlier week than the row before it. *)
Fixpoint chronological (rows : list dailyRow) : Prop :=
  match rows with
  | [] => True
  | r1 :: rest =>
      match rest with
      | [] => True
      | r2 :: _ => key_le (key r1) (key r2)
      end /\ chronological rest
  end.

(** The weeks of the input: the maximal runs of consecutive rows of the same
    ISO (year, week) pair, each as its first row and the rows after it. *)
Fixpoint weeks (rows : list dailyRow) : list (dailyRow * list dailyRow) :=
  match rows with
  | [] => []
  | r :: rest =>
      match weeks rest with
      | [] => [(r, [])]
      | (r', rs) :: gs =>
          if key_eqb (key r) (key r') then (r, r' :: rs) :: gs
          else (r, []) :: (r', rs) :: gs
      end
  end.

Definition rowsOf (g : dailyRow * list dailyRow) : list dailyRow := fst g :: snd g.

Definition flatten (groups : list (dailyRow * list dailyRow)) : list dailyRow :=
  flat_map rowsOf groups.

(** The distinct pairs of a list, in the order they are first met. *)
Fixpoint distinct (ks : list (Z * Z)) : list (Z * Z) :=
  match ks with
  | [] => []
  | k :: rest => k :: filter (fun k' => negb (key_eqb k' k)) (distinct rest)
  end.

(** The [currentWeek...] values after a row that starts a week. *)
Definition startWeek (r : dailyRow) : week F := {|
  currentWeekHasValues := true;
  currentWeekDateStr := rowDateStr r;
  currentWeekOpen := rowOpen r;
  currentWeekHigh := rowHigh r;
  currentWeekLow := rowLow r;
  currentWeekClose := rowClose r;
  currentWeekVolume := rowVolume r;
  currentWeekOpenInt := rowOpenInt r;
  currentWeekIsoYearNumber := rowIsoYear r;
  currentWeekIsoWeekNumber := rowIsoWeek r
|}.

(** The [currentWeek...] values after a row of the same week is folded in. *)
Definition foldWeek (w : week F) (r : dailyRow) : week F :=
  let priceValues := sort [rowOpen r; rowHigh r; rowLow r; rowClose r] in
  let smallestValue := hd (rowOpen r) priceValues in
  let largestValue := last priceValues (rowOpen r) in
  {| currentWeekHasValues := currentWeekHasValues w;
     currentWeekDateStr := currentWeekDateStr w;
     currentWeekOpen := currentWeekOpen w;
     currentWeekHigh := if fgt largestValue (currentWeekHigh w) then largestValue
                        else currentWeekHigh w;
     currentWeekLow := if flt smallestValue (currentWeekLow w) then smallestValue
                       else currentWeekLow w;
     currentWeekClose := rowClose r;
     currentWeekVolume := (currentWeekVolume w + rowVolume r)%Z;
     currentWeekOpenInt := rowOpenInt r;
     currentWeekIsoYearNumber := currentWeekIsoYearNumber w;
     currentWeekIsoWeekNumber := currentWeekIsoWeekNumber w |}.

(** The converted line of a week. *)
Definition weekOf (g : dailyRow * list dailyRow) : convertedLine F :=
  formatWeek (fold_left foldWeek (snd g) (startWeek (fst g))).

(** What the loop body does with a well-formed row, on the current week and
    the converted lines. *)
Definition rowStep (a : week F * list (convertedLine F)) (r : dailyRow)
  : outcome (week F * list (convertedLine F)) :=
  let w := fst a in
  if negb (currentWeekHasValues w) then Ok (startWeek r, snd a)
  else if (rowIsoYear r <? currentWeekIsoYearNumber w)%Z then
    SysExit (orderError (rowLine r))
  else if ((rowIsoYear r =? currentWeekIsoYearNumber w)
           && (rowIsoWeek r <? currentWeekIsoWeekNumber w))%Z then
    SysExit (orderError (rowLine r))
  else if ((rowIsoYear r =? currentWeekIsoYearNumber w)
           && (rowIsoWeek r =? currentWeekIsoWeekNumber w))%Z then
    Ok (foldWeek w r, snd a)
  else Ok (startWeek r, (snd a ++ [formatWeek w])%list).

Fixpoint rowsRun (a : week F * list (convertedLine F)) (rows : list dailyRow)
  : outcome (week F * list (convertedLine F)) :=
  match rows with
  | [] => Ok a
  | r :: rest => a' <- rowStep a r ;; rowsRun a' rest
  end.

(** The end of the script, from the current week and the converted lines. *)
Definition finish (a : week F * list (convertedLine F)) : list (outputLine F) :=
  headerLine ::
  map weekLine
    (if currentWeekHasValues (fst a) then (snd a ++ [formatWeek (fst a)])%list
     else snd a).

Definition view (st : state F) : week F * list (convertedLine F) :=
  (currentWeek st, convertedLines st).

(** The ISO (year, week) pair of the current week. *)
Definition weekKey (w : week F) : Z * Z :=
  (currentWeekIsoYearNumber w, currentWeekIsoWeekNumber w).

(** The current week after all the rows of a week. *)
Definition weekOfGroup (g : dailyRow * list dailyRow) : week F :=
  fold_left foldWeek (snd g) (startWeek (fst g)).

(** Each group holds rows of one pair, later than the pair before it. *)
Fixpoint laterWeeks (k : Z * Z) (groups : list (dailyRow * list dailyRow)) : Prop :=
  match groups with
  | [] => True
  | g :: gs =>
      key_lt k (key (fst g)) /\
      Forall (fun r => key r = key (fst g)) (snd g) /\
      laterWeeks (key (fst g)) gs
  end.

Definition wellGrouped (groups : list (dailyRow * list dailyRow)) : Prop :=
  match groups with
  | [] => True
  | g :: gs =>
      Forall (fun r => key r = key (fst g)) (snd g) /\ laterWeeks (key (fst g)) gs
  end.

(** The current week and the converted lines after more weeks. *)
Fixpoint closing (w : week F) (out : list (convertedLine F))
  (groups : list (dailyRow * list dailyRow)) : week F * list (convertedLine F) :=
  match groups with
  | [] => (w, out)
  | g :: gs => closing (weekOfGroup g) (out ++ [formatWeek w])%list gs
  end.

(** The four prices of a row. *)
Definition prices (r : dailyRow) : list F :=
  [rowOpen r; rowHigh r; rowLow r; rowClose r].

(** The outcome of a step on the state, seen on the current week and the
    converted lines. *)
Definition viewed (o : outcome (state F)) : outcome (week F * list (convertedLine F)) :=
  st <- o ;; Ok (view st).

(** The end of the script after the loop, on its outcome. *)
Definition finished (o : outcome (week F * list (convertedLine F)))
  : outcome (list (outputLine F)) :=
  a <- o ;; Ok (finish a).

(** What a converted line says of its week: date and open of the first row,
    close and open interest of the last row, volume the sum of the volumes. *)
Definition summarizes (g : dailyRow * list (dailyRow)) (l : convertedLine F) : Prop :=
  lineDateStr l = rowDateStr (fst g) /\
  lineOpen l = rowOpen (fst g) /\
  lineClose l = rowClose (last (rowsOf g) (fst g)) /\
  lineOpenInt l = rowOpenInt (last (rowsOf g) (fst g)) /\
  lineVolume l = fold_right Z.add 0%Z (map rowVolume (rowsOf g)).

(** The row of a line opens a week that no row before it belongs to. *)
Definition opensWeek (rows : list (dailyRow)) (k : Z * Z) (l : convertedLine F) : Prop :=
  exists before r after,
    rows = (before ++ r :: after)%list /\
    key r = k /\
    Forall (fun r' => key r' <> k) before /\
    lineDateStr l = rowDateStr r.

End Rows.

Arguments dailyRow F : clear implicits.

(** [m] is a greatest (a least) value of the list, on exact prices. *)
Definition greatest (m : Q) (l : list Q) : Prop :=
  In m l /\ Forall (fun v => v <= m) l.

Definition least (m : Q) (l : list Q) : Prop :=
  In m l /\ Forall (fun v => m <= v) l.

End WeeklyRows.

(** ** Concrete builtins, for running the scripts on concrete files

    The general theorems quantify over [py_float], [py_int] and
    [py_isocalendar].  To run the model on a concrete file they are
    instantiated with the definitions below: plain decimal notation for
    [int()] and [float()] (a fragment of what Python accepts) and the
    proleptic Gregorian calendar of the [datetime] module. *)

Module Builtins.

Import PyStr.

Local Open Scope string_scope.
Local Open Scope Z_scope.

Definition digit (c : ascii) : option Z :=
  let n := nat_of_ascii c in
  if ((48 <=? n) && (n <=? 57))%nat then Some (Z.of_nat (n - 48)) else None.

Fixpoint digits (acc : Z) (s : string) : option Z :=
  match s with
  | EmptyString => Some acc
  | String c rest =>
      match digit c with
      | Some d => digits (10 * acc + d) rest
      | None => None
      end
  end.

Definition natural (s : string) : option Z :=
  match s with
  | EmptyString => None
  | _ => digits 0 s
  end.

(** [int(s)] for an optionally signed decimal numeral. *)
Definition decimal_int (s : string) : option Z :=
  match strip s with
  | String "-" rest => option_map Z.opp (natural rest)
  | String "+" rest => natural rest
  | t => natural t
  end.

Definition unsigned_decimal (s : string) : option Q :=
  match split "." s with
  | [whole] => option_map inject_Z (natural whole)
  | [whole; fraction] =>
      match natural whole, natural fraction with
      | Some n, Some m =>
          let scale := 10 ^ Z.of_nat (String.length fraction) in
          Some (Qred (Qmake (n * scale + m) (Z.to_pos scale)))
      | _, _ => None
      end
  | _ => None
  end.

(** [float(s)] for an optionally signed decimal numeral with an optional
    fraction, as an exact rational. *)
Definition decimal_float (s : string) : option Q :=
  match strip s with
  | String "-" rest => option_map Qopp (unsigned_decimal rest)
  | String "+" rest => unsigned_decimal rest
  | t => unsigned_decimal t
  end.

(** The calendar arithmetic of CPython's [datetime] module. *)
Definition is_leap (year : Z) : bool :=
  (year mod 4 =? 0) && (negb (year mod 100 =? 0) || (year mod 400 =? 0)).

Definition days_before_year (year : Z) : Z :=
  let y := year - 1 in y * 365 + y / 4 - y / 100 + y / 400.

Definition days_in_month (year month : Z) : Z :=
  match month with
  | 2 => if is_leap year then 29 else 28
  | 4 | 6 | 9 | 11 => 30
  | _ => 31
  end.

Definition days_before_month (year month : Z) : Z :=
  match month with
  | 1 => 0 | 2 => 31 | 3 => 59 | 4 => 90 | 5 => 120 | 6 => 151
  | 7 => 181 | 8 => 212 | 9 => 243 | 10 => 273 | 11 => 304 | _ => 334
  end + (if (month >? 2) && is_leap year then 1 else 0).

Definition ymd2ord (year month day : Z) : Z :=
  days_before_year year + days_before_month year month + day.

Definition isoweek1monday (year : Z) : Z :=
  let firstday := ymd2ord year 1 1 in
  let firstweekday := (firstday + 6) mod 7 in
  let week1monday := firstday - firstweekday in
  if firstweekday >? 3 then week1monday + 7 else week1monday.

(** The days of a year, and the dates [datetime.date] accepts. *)
Definition year_length (year : Z) : Z := if is_leap year then 366 else 365.

Definition valid_date (year month day : Z) : Prop :=
  1 <= month <= 12 /\ 1 <= day <= days_in_month year month.

(** [datetime.date(year, month, day).isocalendar()] *)
Definition gregorian_isocalendar (year month day : Z) : option (Z * Z * Z) :=
  if (1 <=? year) && (year <=? 9999) && (1 <=? month) && (month <=? 12)
     && (1 <=? day) && (day <=? days_in_month year month) then
    let week1monday := isoweek1monday year in
    let today := ymd2ord year month day in
    let week := (today - week1monday) / 7 in
    let day0 := (today - week1monday) mod 7 in
    if week <? 0 then
      let week1monday' := isoweek1monday (year - 1) in
      Some (year - 1, (today - week1monday') / 7 + 1, (today - week1monday') mod 7 + 1)
    else if (week >=? 52) && (today >=? isoweek1monday (year + 1)) then
      Some (year + 1, 1, day0 + 1)
    else Some (year, week + 1, day0 + 1)
  else None.

End Builtins.

(** ** Concrete inputs *)

Module Examples.

Import PyStr Builtins Weekly WeeklyRows.

Local Open Scope string_scope.
Local Open Scope list_scope.
Local Open Scope Q_scope.

Definition LF : string := String (ascii_of_nat 10) EmptyString.


(** The script with the concrete builtins, on exact prices. *)
Definition run (f : list string) : outcome (list (outputLine Q)) :=
  main decimal_float decimal_int gregorian_isocalendar f.

(** Monday 6 to Friday 10 January 2020, ISO week 2 of 2020. *)
Definition mon_fri : list string :=
  [ "Date,Open,High,Low,Close,Volume,OpenInt" ++ LF;
    "01/06/2020,10,12,9,11,100,5" ++ LF;
    "01/07/2020,12,13,10,11.5,200,6" ++ LF;
    "01/08/2020,9,10,8,9.5,150,7" ++ LF;
    "01/09/2020,11,14,10,13,300,8" ++ LF;
    "01/10/2020,13,15,12,14,250,9" ++ LF ]%string.

(** The rows the data lines of a file stand for, when they are well formed. *)
Fixpoint rowsOfLines (lines : list string) : option (list (dailyRow Q)) :=
  match lines with
  | [] => Some []
  | line :: rest =>
      match parseRow decimal_float decimal_int gregorian_isocalendar line,
            rowsOfLines rest with
      | Some r, Some rows => Some (r :: rows)
      | _, _ => None
      end
  end.

(** Two weeks: Thursday and Friday of ISO week 1 of 2020, a blank line, then
    Monday of week 2. *)
Definition two_weeks : list string :=
  [ "Date,Open,High,Low,Close,Volume,OpenInt" ++ LF;
    "01/02/2020,10,12,9,11,100,5" ++ LF;
    "01/03/2020,11,13,10,12,200,6" ++ LF;
    LF;
    "01/06/2020,12,14,11,13,300,7" ++ LF ]%string.

(** Monday of ISO week 3 of 2020, then Monday of week 2. *)
Definition weeks_out_of_order : list string :=
  [ "Date,Open,High,Low,Close,Volume,OpenInt";
    "01/13/2020,9,10,8,9.5,150,7";
    "01/06/2020,10,12,9,11,100,5" ]%string.

(** Wednesday 8 January 2020, then Monday 6 January: the same ISO week. *)
Definition days_out_of_order : list string :=
  [ "Date,Open,High,Low,Close,Volume,OpenInt";
    "01/08/2020,9,10,8,9.5,150,7";
    "01/06/2020,10,12,9,11,100,5" ]%string.



(** A week whose first row opens at 20 above its high of 15, and a week
    whose first row closes at 7 below its low of 9. *)
Definition open_above_high : list string :=
  [ "Date,Open,High,Low,Close,Volume,OpenInt";
    "01/06/2020,20,15,8,9,100,5";
    "01/07/2020,9,10,8,9.5,150,7" ]%string.

Definition close_below_low : list string :=
  [ "Date,Open,High,Low,Close,Volume,OpenInt";
    "01/06/2020,10,12,9,7,100,5";
    "01/07/2020,9,10,8,9.5,150,7" ]%string.

End Examples.

(** ** Concrete printers, for running the scripts on concrete files *)

Module Printers.

Local Open Scope string_scope.

(** ["{}".format(n)] on an [int]. *)
Definition int_str (n : Z) : string :=
  DecimalString.NilZero.string_of_int (Z.to_int n).

(** ["{}".format(x)] on a float whose value is a whole number. *)
Definition whole_str (x : Q) : string := int_str (Qfloor x) ++ ".0".

End Printers.

(** ** The weekly aggregator: the exception of a date that is not a date *)

Module WeeklyErrors.

Import PyStr.

(** The exception that the conversions of the date of a line raise, lines
    163-167: [int(monthStr)], [int(dayStr)], [int(yearStr)] and
    [datetime.date(year, month, day)], in that order; [None] when none
    does. *)
Definition dateError (py_int : string -> option Z)
  (py_isocalendar : Z -> Z -> Z -> option (Z * Z * Z)) (dateStr : string)
  : option exn :=
  let monthStr := slice 0 2 dateStr in
  let dayStr := slice 3 5 dateStr in
  let yearStr := slice 6 10 dateStr in
  match py_int monthStr with
  | None => Some (IntValueError monthStr)
  | Some month =>
      match py_int dayStr with
      | None => Some (IntValueError dayStr)
      | Some day =>
          match py_int yearStr with
          | None => Some (IntValueError yearStr)
          | Some year =>
              match py_isocalendar year month day with
              | None => Some (DateValueError year month day)
              | Some _ => None
              end
          end
      end
  end.

End WeeklyErrors.

(** ** The weekly aggregator: the text of the output file *)

Module WeeklyOutput.

Import PyStr Weekly WeeklyRows.

Local Open Scope string_scope.

Definition quote : string := String (ascii_of_nat 34) EmptyString.

(** [headerLine], the text in double quotes of line 47. *)
Definition headerLineText : string :=
  quote ++ "Date" ++ quote ++ "," ++ quote ++ "Open" ++ quote ++ "," ++
  quote ++ "High" ++ quote ++ "," ++ quote ++ "Low" ++ quote ++ "," ++
  quote ++ "Close" ++ quote ++ "," ++ quote ++ "Volume" ++ quote ++ "," ++
  quote ++ "OpenInt" ++ quote.

(** [newline = "\r\n"] *)
Definition newline : string :=
  String (ascii_of_nat 13) (String (ascii_of_nat 10) EmptyString).

(** The end of a line as Python reads it back from a text file: the two
    characters of [newline] are read as a line feed. *)
Definition lineFeed : string := String (ascii_of_nat 10) EmptyString.

Section Output.

Context {F : Type}.

(** ["{}".format(x)] on a float and on an [int]: builtins of the language. *)
Variable str_float : F -> string.
Variable str_int : Z -> string.

(** ["{},{},{},{},{},{},{}".format(currentWeekDateStr, currentWeekOpen,
    currentWeekHigh, currentWeekLow, currentWeekClose, currentWeekVolume,
    currentWeekOpenInt)] *)
Definition format (l : convertedLine F) : string :=
  lineDateStr l ++ "," ++ str_float (lineOpen l) ++ "," ++
  str_float (lineHigh l) ++ "," ++ str_float (lineLow l) ++ "," ++
  str_float (lineClose l) ++ "," ++ str_int (lineVolume l) ++ "," ++
  str_int (lineOpenInt l).

(** The text of a line of [convertedLines]. *)
Definition text (line : outputLine F) : string :=
  match line with
  | headerLine => headerLineText
  | weekLine l => format l
  end.

(** [for line in convertedLines: f.write(line + newline)], with [ending]
    for [newline]: the strings written, in order. *)
Definition writtenWith (ending : string) (convertedLines : list (outputLine F))
  : list string :=
  map (fun line => text line ++ ending) convertedLines.

Definition written (convertedLines : list (outputLine F)) : list string :=
  writtenWith newline convertedLines.

(** *** Vocabulary *)

(** The text has no comma. *)
Fixpoint noComma (s : string) : bool :=
  match s with
  | EmptyString => true
  | String c rest => negb (Ascii.eqb c ",") && noComma rest
  end.

(** The text is made of white space. *)
Fixpoint whiteSpace (s : string) : bool :=
  match s with
  | EmptyString => true
  | String c rest => isspace c && whiteSpace rest
  end.

(** The values of a converted line are read back from their texts: the text
    of each has no comma, and [float()] or [int()] of it is the value. *)
Definition readBack (py_float : string -> option F) (py_int : string -> option Z)
  (line : outputLine F) : Prop :=
  match line with
  | headerLine => True
  | weekLine l =>
      Forall (fun x => noComma (str_float x) = true /\
                       py_float (strip (str_float x)) = Some x)
             [lineOpen l; lineHigh l; lineLow l; lineClose l] /\
      Forall (fun n => noComma (str_int n) = true /\
                       py_int (strip (str_int n)) = Some n)
             [lineVolume l; lineOpenInt l]
  end.

(** The row that a written line stands for when it is read again: the
    values of the line, on the date of the first row of its week. *)
Definition rowRead (ending : string) (first : dailyRow F) (l : convertedLine F)
  : dailyRow F := {|
  rowLine := format l ++ ending;
  rowDateStr := lineDateStr l;
  rowDate := rowDate first;
  rowIsoYear := rowIsoYear first;
  rowIsoWeek := rowIsoWeek first;
  rowOpen := lineOpen l;
  rowHigh := lineHigh l;
  rowLow := lineLow l;
  rowClose := lineClose l;
  rowVolume := lineVolume l;
  rowOpenInt := lineOpenInt l
|}.

End Output.

End WeeklyOutput.

(** ** The longitude engine, from the input file to the output file *)

Module EphemerisScript.

Import PyStr Ephemeris.

Local Open Scope list_scope.
Local Open Scope string_scope.

(** [linesToSkip = 1] *)
Definition linesToSkip : nat := 1.

(** The two dictionaries of lines 59-91, as their items. *)
Definition planetGeocentricLongitudeColumn : list (string * nat) :=
  [ ("Sun", 18); ("Moon", 19); ("Mercury", 20); ("Venus", 21); ("Mars", 22);
    ("Jupiter", 23); ("Saturn", 24); ("Uranus", 25); ("Neptune", 26);
    ("Pluto", 27); ("TrueNorthNode", 28); ("Chiron", 29); ("Isis", 30) ]%nat.

Definition planetHeliocentricLongitudeColumn : list (string * nat) :=
  [ ("Mercury", 55); ("Venus", 56); ("Earth", 57); ("Mars", 58); ("Jupiter", 59);
    ("Saturn", 60); ("Uranus", 61); ("Neptune", 62); ("Pluto", 63);
    ("Chiron", 64); ("Isis", 65) ]%nat.

(** [d[key]]; [None] when it raises [KeyError]. *)
Fixpoint getitem (d : list (string * nat)) (key : string) : option nat :=
  match d with
  | [] => None
  | (k, v) :: rest => if String.eqb k key then Some v else getitem rest key
  end.

(** *** Reading the input file, lines 300-326 *)

(** The variables of the read loop. *)
Record input : Type := {
  i : nat;
  headerLine : string;
  listOfDataValues : list (list string)
}.

(** One iteration of [for line in f]. *)
Definition readLine (st : input) (line : string) : input :=
  let line := strip line in
  if String.eqb line "" then
    {| i := S (i st); headerLine := headerLine st;
       listOfDataValues := listOfDataValues st |}
  else if (i st <? linesToSkip)%nat then
    {| i := S (i st); headerLine := line;
       listOfDataValues := listOfDataValues st |}
  else
    let dataValues := split "," line in
    {| i := S (i st); headerLine := headerLine st;
       listOfDataValues := (listOfDataValues st ++ [dataValues])%list |}.

Definition readLines (f : list string) : input :=
  fold_left readLine f {| i := 0; headerLine := ""; listOfDataValues := [] |}.

(** *** The calculations, lines 338-1798

    Every block of the script that is not commented out has one of two
    shapes:
<<
    columnName = "G.Moon"
    headerLine += "," + columnName
    planetColumn = planetGeocentricLongitudeColumn["Moon"]
    listOfDataValues = doCalculationsForColumn(listOfDataValues, planetColumn)
>>
    and
<<
    columnName = "G.Moon/G.Sun"
    headerLine += "," + columnName
    fasterPlanetColumn = planetGeocentricLongitudeColumn["Moon"]
    slowerPlanetColumn = planetGeocentricLongitudeColumn["Sun"]
    listOfDataValues = doCalculationsForColumns(listOfDataValues,
                                                fasterPlanetColumn,
                                                slowerPlanetColumn)
>>
    A block is recorded by its column name, the dictionaries it reads and
    the keys it reads them at; [calculations] lists the blocks in the order
    of the script. *)

Inductive dictionary : Type := Geocentric | Heliocentric.

Definition items (d : dictionary) : list (string * nat) :=
  match d with
  | Geocentric => planetGeocentricLongitudeColumn
  | Heliocentric => planetHeliocentricLongitudeColumn
  end.

Inductive calculation : Type :=
| OnePlanet (columnName : string) (d : dictionary) (planet : string)
| TwoPlanets (columnName : string)
    (fasterDict : dictionary) (fasterPlanet : string)
    (slowerDict : dictionary) (slowerPlanet : string).

Definition columnName (c : calculation) : string :=
  match c with
  | OnePlanet name _ _ => name
  | TwoPlanets name _ _ _ _ => name
  end.

Definition calculations : list calculation :=
  [ OnePlanet "G.Moon" Geocentric "Moon";
    OnePlanet "G.Mercury" Geocentric "Mercury";
    OnePlanet "G.Venus" Geocentric "Venus";
    OnePlanet "G.Sun" Geocentric "Sun";
    OnePlanet "G.Mars" Geocentric "Mars";
    OnePlanet "G.Jupiter" Geocentric "Jupiter";
    OnePlanet "G.TrueNorthNode" Geocentric "TrueNorthNode";
    OnePlanet "G.Saturn" Geocentric "Saturn";
    OnePlanet "G.Chiron" Geocentric "Chiron";
    OnePlanet "G.Uranus" Geocentric "Uranus";
    OnePlanet "G.Neptune" Geocentric "Neptune";
    OnePlanet "G.Pluto" Geocentric "Pluto";
    OnePlanet "G.Isis" Geocentric "Isis";
    OnePlanet "H.Mercury" Heliocentric "Mercury";
    OnePlanet "H.Venus" Heliocentric "Venus";
    OnePlanet "H.Earth" Heliocentric "Earth";
    OnePlanet "H.Mars" Heliocentric "Mars";
    OnePlanet "H.Jupiter" Heliocentric "Jupiter";
    OnePlanet "H.Saturn" Heliocentric "Saturn";
    OnePlanet "H.Chiron" Heliocentric "Chiron";
    OnePlanet "H.Uranus" Heliocentric "Uranus";
    OnePlanet "H.Neptune" Heliocentric "Neptune";
    OnePlanet "H.Pluto" Heliocentric "Pluto";
    OnePlanet "H.Isis" Heliocentric "Isis";
    TwoPlanets "G.Moon/G.Mercury" Geocentric "Moon" Geocentric "Mercury";
    TwoPlanets "G.Moon/G.Venus" Geocentric "Moon" Geocentric "Venus";
    TwoPlanets "G.Moon/G.Sun" Geocentric "Moon" Geocentric "Sun";
    TwoPlanets "G.Moon/G.Mars" Geocentric "Moon" Geocentric "Mars";
    TwoPlanets "G.Moon/G.Jupiter" Geocentric "Moon" Geocentric "Jupiter";
    TwoPlanets "G.Moon/G.TrueNorthNode" Geocentric "Moon" Geocentric "TrueNorthNode";
    TwoPlanets "G.Moon/G.Saturn" Geocentric "Moon" Geocentric "Saturn";
    TwoPlanets "G.Moon/G.Uranus" Geocentric "Moon" Geocentric "Uranus";
    TwoPlanets "G.Mercury/G.Venus" Geocentric "Mercury" Geocentric "Venus";
    TwoPlanets "G.Mercury/G.Sun" Geocentric "Mercury" Geocentric "Sun";
    TwoPlanets "G.Mercury/G.Mars" Geocentric "Mercury" Geocentric "Mars";
    TwoPlanets "G.Mercury/G.Jupiter" Geocentric "Mercury" Geocentric "Jupiter";
    TwoPlanets "G.Mercury/G.TrueNorthNode" Geocentric "Mercury" Geocentric "TrueNorthNode";
    TwoPlanets "G.Mercury/G.Saturn" Geocentric "Mercury" Geocentric "Saturn";
    TwoPlanets "G.Mercury/G.Chiron" Geocentric "Mercury" Geocentric "Chiron";
    TwoPlanets "G.Mercury/G.Uranus" Geocentric "Mercury" Geocentric "Uranus";
    TwoPlanets "G.Mercury/G.Neptune" Geocentric "Mercury" Geocentric "Neptune";
    TwoPlanets "G.Mercury/G.Pluto" Geocentric "Mercury" Geocentric "Pluto";
    TwoPlanets "G.Venus/G.Sun" Geocentric "Venus" Geocentric "Sun";
    TwoPlanets "G.Venus/G.Mars" Geocentric "Venus" Geocentric "Mars";
    TwoPlanets "G.Venus/G.Jupiter" Geocentric "Venus" Geocentric "Jupiter";
    TwoPlanets "G.Venus/G.TrueNorthNode" Geocentric "Venus" Geocentric "TrueNorthNode";
    TwoPlanets "G.Venus/G.Saturn" Geocentric "Venus" Geocentric "Saturn";
    TwoPlanets "G.Venus/G.Chiron" Geocentric "Venus" Geocentric "Chiron";
    TwoPlanets "G.Venus/G.Uranus" Geocentric "Venus" Geocentric "Uranus";
    TwoPlanets "G.Venus/G.Neptune" Geocentric "Venus" Geocentric "Neptune";
    TwoPlanets "G.Venus/G.Pluto" Geocentric "Venus" Geocentric "Pluto";
    TwoPlanets "G.Sun/G.Mars" Geocentric "Sun" Geocentric "Mars";
    TwoPlanets "G.Sun/G.Jupiter" Geocentric "Sun" Geocentric "Jupiter";
    TwoPlanets "G.Sun/G.TrueNorthNode" Geocentric "Sun" Geocentric "TrueNorthNode";
    TwoPlanets "G.Sun/G.Saturn" Geocentric "Sun" Geocentric "Saturn";
    TwoPlanets "G.Sun/G.Chiron" Geocentric "Sun" Geocentric "Chiron";
    TwoPlanets "G.Sun/G.Uranus" Geocentric "Sun" Geocentric "Uranus";
    TwoPlanets "G.Sun/G.Neptune" Geocentric "Sun" Geocentric "Neptune";
    TwoPlanets "G.Sun/G.Pluto" Geocentric "Sun" Geocentric "Pluto";
    TwoPlanets "G.Mars/G.Jupiter" Geocentric "Mars" Geocentric "Jupiter";
    TwoPlanets "G.Mars/G.TrueNorthNode" Geocentric "Mars" Geocentric "TrueNorthNode";
    TwoPlanets "G.Mars/G.Saturn" Geocentric "Mars" Geocentric "Saturn";
    TwoPlanets "G.Mars/G.Chiron" Geocentric "Mars" Geocentric "Chiron";
    TwoPlanets "G.Mars/G.Uranus" Geocentric "Mars" Geocentric "Uranus";
    TwoPlanets "G.Mars/G.Neptune" Geocentric "Mars" Geocentric "Neptune";
    TwoPlanets "G.Mars/G.Pluto" Geocentric "Mars" Geocentric "Pluto";
    TwoPlanets "G.Jupiter/G.TrueNorthNode" Geocentric "Jupiter" Geocentric "TrueNorthNode";
    TwoPlanets "G.Jupiter/G.Saturn" Geocentric "Jupiter" Geocentric "Saturn";
    TwoPlanets "G.Jupiter/G.Chiron" Geocentric "Jupiter" Geocentric "Chiron";
    TwoPlanets "G.Jupiter/G.Uranus" Geocentric "Jupiter" Geocentric "Uranus";
    TwoPlanets "G.Jupiter/G.Neptune" Geocentric "Jupiter" Geocentric "Neptune";
    TwoPlanets "G.Jupiter/G.Pluto" Geocentric "Jupiter" Geocentric "Pluto";
    TwoPlanets "G.TrueNorthNode/G.Saturn" Geocentric "TrueNorthNode" Geocentric "Saturn";
    TwoPlanets "G.TrueNorthNode/G.Chiron" Geocentric "TrueNorthNode" Geocentric "Chiron";
    TwoPlanets "G.TrueNorthNode/G.Uranus" Geocentric "TrueNorthNode" Geocentric "Uranus";
    TwoPlanets "G.TrueNorthNode/G.Neptune" Geocentric "TrueNorthNode" Geocentric "Neptune";
    TwoPlanets "G.TrueNorthNode/G.Pluto" Geocentric "TrueNorthNode" Geocentric "Pluto";
    TwoPlanets "G.Saturn/G.Chiron" Geocentric "Saturn" Geocentric "Chiron";
    TwoPlanets "G.Saturn/G.Uranus" Geocentric "Saturn" Geocentric "Uranus";
    TwoPlanets "G.Saturn/G.Neptune" Geocentric "Saturn" Geocentric "Neptune";
    TwoPlanets "G.Saturn/G.Pluto" Geocentric "Saturn" Geocentric "Pluto";
    TwoPlanets "G.Chiron/G.Uranus" Geocentric "Chiron" Geocentric "Uranus";
    TwoPlanets "G.Chiron/G.Neptune" Geocentric "Chiron" Geocentric "Neptune";
    TwoPlanets "G.Chiron/G.Pluto" Geocentric "Chiron" Geocentric "Pluto";
    TwoPlanets "G.Uranus/G.Neptune" Geocentric "Uranus" Geocentric "Neptune";
    TwoPlanets "G.Uranus/G.Pluto" Geocentric "Uranus" Geocentric "Pluto";
    TwoPlanets "G.Neptune/G.Pluto" Geocentric "Neptune" Geocentric "Pluto";
    TwoPlanets "H.Mercury/H.Venus" Heliocentric "Mercury" Heliocentric "Venus";
    TwoPlanets "H.Mercury/H.Earth" Heliocentric "Mercury" Heliocentric "Earth";
    TwoPlanets "H.Mercury/H.Mars" Heliocentric "Mercury" Heliocentric "Mars";
    TwoPlanets "H.Mercury/H.Jupiter" Heliocentric "Mercury" Heliocentric "Jupiter";
    TwoPlanets "H.Mercury/H.Chiron" Heliocentric "Mercury" Heliocentric "Chiron";
    TwoPlanets "H.Mercury/H.Saturn" Heliocentric "Mercury" Heliocentric "Saturn";
    TwoPlanets "H.Mercury/H.Uranus" Heliocentric "Mercury" Heliocentric "Uranus";
    TwoPlanets "H.Mercury/H.Neptune" Heliocentric "Mercury" Heliocentric "Neptune";
    TwoPlanets "H.Mercury/H.Pluto" Heliocentric "Mercury" Heliocentric "Pluto";
    TwoPlanets "H.Venus/H.Earth" Heliocentric "Venus" Heliocentric "Earth";
    TwoPlanets "H.Venus/H.Mars" Heliocentric "Venus" Heliocentric "Mars";
    TwoPlanets "H.Venus/H.Jupiter" Heliocentric "Venus" Heliocentric "Jupiter";
    TwoPlanets "H.Venus/H.Chiron" Heliocentric "Venus" Heliocentric "Chiron";
    TwoPlanets "H.Venus/H.Saturn" Heliocentric "Venus" Heliocentric "Saturn";
    TwoPlanets "H.Venus/H.Uranus" Heliocentric "Venus" Heliocentric "Uranus";
    TwoPlanets "H.Venus/H.Neptune" Heliocentric "Venus" Heliocentric "Neptune";
    TwoPlanets "H.Venus/H.Pluto" Heliocentric "Venus" Heliocentric "Pluto";
    TwoPlanets "H.Earth/H.Mars" Heliocentric "Earth" Heliocentric "Mars";
    TwoPlanets "H.Earth/H.Jupiter" Heliocentric "Earth" Heliocentric "Jupiter";
    TwoPlanets "H.Earth/H.Chiron" Heliocentric "Earth" Heliocentric "Chiron";
    TwoPlanets "H.Earth/H.Saturn" Heliocentric "Earth" Heliocentric "Saturn";
    TwoPlanets "H.Earth/H.Uranus" Heliocentric "Earth" Heliocentric "Uranus";
    TwoPlanets "H.Earth/H.Neptune" Heliocentric "Earth" Heliocentric "Neptune";
    TwoPlanets "H.Earth/H.Pluto" Heliocentric "Earth" Heliocentric "Pluto";
    TwoPlanets "H.Mars/H.Jupiter" Heliocentric "Mars" Heliocentric "Jupiter";
    TwoPlanets "H.Mars/H.Chiron" Heliocentric "Mars" Heliocentric "Chiron";
    TwoPlanets "H.Mars/H.Saturn" Heliocentric "Mars" Heliocentric "Saturn";
    TwoPlanets "H.Mars/H.Uranus" Heliocentric "Mars" Heliocentric "Uranus";
    TwoPlanets "H.Mars/H.Neptune" Heliocentric "Mars" Heliocentric "Neptune";
    TwoPlanets "H.Mars/H.Pluto" Heliocentric "Mars" Heliocentric "Pluto";
    TwoPlanets "H.Jupiter/H.Chiron" Heliocentric "Jupiter" Heliocentric "Chiron";
    TwoPlanets "H.Jupiter/H.Saturn" Heliocentric "Jupiter" Heliocentric "Saturn";
    TwoPlanets "H.Jupiter/H.Uranus" Heliocentric "Jupiter" Heliocentric "Uranus";
    TwoPlanets "H.Jupiter/H.Neptune" Heliocentric "Jupiter" Heliocentric "Neptune";
    TwoPlanets "H.Jupiter/H.Pluto" Heliocentric "Jupiter" Heliocentric "Pluto";
    TwoPlanets "H.Chiron/H.Saturn" Heliocentric "Chiron" Heliocentric "Saturn";
    TwoPlanets "H.Chiron/H.Uranus" Heliocentric "Chiron" Heliocentric "Uranus";
    TwoPlanets "H.Chiron/H.Neptune" Heliocentric "Chiron" Heliocentric "Neptune";
    TwoPlanets "H.Chiron/H.Pluto" Heliocentric "Chiron" Heliocentric "Pluto";
    TwoPlanets "H.Saturn/H.Uranus" Heliocentric "Saturn" Heliocentric "Uranus";
    TwoPlanets "H.Saturn/H.Neptune" Heliocentric "Saturn" Heliocentric "Neptune";
    TwoPlanets "H.Saturn/H.Pluto" Heliocentric "Saturn" Heliocentric "Pluto";
    TwoPlanets "H.Uranus/H.Neptune" Heliocentric "Uranus" Heliocentric "Neptune";
    TwoPlanets "H.Uranus/H.Pluto" Heliocentric "Uranus" Heliocentric "Pluto";
    TwoPlanets "H.Neptune/H.Pluto" Heliocentric "Neptune" Heliocentric "Pluto" ].

(** How the script ends: with a [KeyError] of a dictionary lookup, or as
    the functions it calls end. *)
Inductive ending (A : Type) : Type :=
| KeyError (key : string)
| Python (o : outcome A).

Arguments KeyError {A} key.
Arguments Python {A} o.

Section Script.

Context {F : Type} `{PyFloat F}.

Variable py_float : string -> option F.
Variable py_str : F -> string.

(** One block, on [headerLine] and [listOfDataValues]. *)
Definition block (fuel : nat) (st : string * list (list string)) (c : calculation)
  : ending (string * list (list string)) :=
  let header := fst st ++ "," ++ columnName c in
  match c with
  | OnePlanet _ d planet =>
      match getitem (items d) planet with
      | None => KeyError planet
      | Some planetColumn =>
          Python (rows <- doCalculationsForColumn py_float py_str fuel (snd st)
                            planetColumn ;;
                  Ok (header, rows))
      end
  | TwoPlanets _ fasterDict fasterPlanet slowerDict slowerPlanet =>
      match getitem (items fasterDict) fasterPlanet with
      | None => KeyError fasterPlanet
      | Some fasterPlanetColumn =>
          match getitem (items slowerDict) slowerPlanet with
          | None => KeyError slowerPlanet
          | Some slowerPlanetColumn =>
              Python (rows <- doCalculationsForColumns py_float py_str fuel (snd st)
                                fasterPlanetColumn slowerPlanetColumn ;;
                      Ok (header, rows))
          end
      end
  end.

(** The blocks one after the other. *)
Fixpoint blocks (fuel : nat) (st : string * list (list string))
  (cs : list calculation) : ending (string * list (list string)) :=
  match cs with
  | [] => Python (Ok st)
  | c :: rest =>
      match block fuel st c with
      | Python (Ok st') => blocks fuel st' rest
      | stopped => stopped
      end
  end.

(** *** Writing the output file, lines 1825-1837 *)

Definition endl : string := String (ascii_of_nat 10) EmptyString.

(** [line[:-1]] *)
Fixpoint dropLast (line : string) : string :=
  match line with
  | EmptyString => EmptyString
  | String c EmptyString => EmptyString
  | String c rest => String c (dropLast rest)
  end.

(** The text of a row: every cell followed by a comma, less the last
    character. *)
Definition rowLine (rowData : list string) : string :=
  dropLast (fold_left (fun line cell => line ++ cell ++ ",") rowData "").

(** The strings given to [f.write], in order. *)
Definition written (st : string * list (list string)) : list string :=
  (fst st ++ endl) :: map (fun rowData => rowLine rowData ++ endl) (snd st).

(** The script on the lines of the input file; [fuel] bounds the iterations
    of each [while] loop.  The script is taken from the lines that
    [for line in f] yields to the strings given to [f.write]: the two
    handlers of [IOError] around the file accesses, the logging and the
    final [shutdown(0)] are left out. *)
Definition script (fuel : nat) (f : list string) : ending (list string) :=
  let read := readLines f in
  match blocks fuel (headerLine read, listOfDataValues read) calculations with
  | KeyError key => KeyError key
  | Python o => Python (st <- o ;; Ok (written st))
  end.

End Script.

(** *** Vocabulary *)

(** The lines of the file that the read loop takes for data: the lines after
    the first, stripped, that are not empty. *)
Definition dataLines (f : list string) : list string :=
  filter (fun line => negb (String.eqb line "")) (map strip (tl f)).

(** A line of text followed by more cells, a comma before each. *)
Definition extended (line : string) (cells : list string) : string :=
  line ++ String.concat "" (map (fun cell => "," ++ cell) cells).

(** The row [row'] is the row [row] followed by [n] more cells. *)
Definition cellsAppended (n : nat) (row row' : list string) : Prop :=
  exists cells, length cells = n /\ row' = (row ++ cells)%list.

(** The columns of the two dictionaries. *)
Definition dictionaryColumns : list nat :=
  (map snd planetGeocentricLongitudeColumn ++
   map snd planetHeliocentricLongitudeColumn)%list.



(** The last cell of each row. *)
Definition cellsOf (rows : list (list string)) : list string :=
  map (fun row => last row "") rows.

Section Separately.

Context {F : Type} `{PyFloat F}.

Variable py_float : string -> option F.
Variable py_str : F -> string.

(** The cells a block appends to the rows, one for each row. *)
Definition cellsFor (fuel : nat) (rows : list (list string)) (c : calculation)
  : ending (list string) :=
  match block py_float py_str fuel ("", rows) c with
  | KeyError key => KeyError key
  | Python o => Python (st <- o ;; Ok (cellsOf (snd st)))
  end.

(** The columns of cells that the blocks append, each block run on the same
    rows, up to the first block that does not return. *)
Fixpoint columnsFor (fuel : nat) (rows : list (list string)) (cs : list calculation)
  : ending (list (list string)) :=
  match cs with
  | [] => Python (Ok [])
  | c :: rest =>
      match cellsFor fuel rows c with
      | KeyError key => KeyError key
      | Python (Ok cells) =>
          match columnsFor fuel rows rest with
          | KeyError key => KeyError key
          | Python o => Python (columns <- o ;; Ok (cells :: columns))
          end
      | Python (SysExit printed) => Python (SysExit printed)
      | Python (Uncaught e) => Python (Uncaught e)
      | Python OutOfFuel => Python OutOfFuel
      end
  end.

(** The header and the rows with the columns of all the blocks, each
    calculated from the same rows. *)
Definition separately (fuel : nat) (st : string * list (list string))
  (cs : list calculation) : ending (string * list (list string)) :=
  match columnsFor fuel (snd st) cs with
  | KeyError key => KeyError key
  | Python o =>
      Python (columns <- o ;;
              Ok (extended (fst st) (map columnName cs),
                  fold_left appendColumn columns (snd st)))
  end.

End Separately.




(** The exceptions of [float(listOfDataValues[i][column])]. *)
Definition raisedByFloat {F : Type} (py_float : string -> option F) (e : exn) : Prop :=
  e = IndexError \/ exists cell, py_float cell = None /\ e = FloatValueError cell.

(** The ways the script is written to end: at its last statement, in a loop,
    or with an exception of a cell it reads. *)
Definition foreseen {F A : Type} (py_float : string -> option F) (r : ending A) : Prop :=
  match r with
  | KeyError _ => False
  | Python (Ok _) => True
  | Python (SysExit _) => False
  | Python (Uncaught e) => raisedByFloat py_float e
  | Python OutOfFuel => True
  end.

(** The dictionary lookups of a block succeed. *)
Definition resolves (c : calculation) : bool :=
  match c with
  | OnePlanet _ d planet =>
      match getitem (items d) planet with Some _ => true | None => false end
  | TwoPlanets _ fd fp sd sp =>
      match getitem (items fd) fp, getitem (items sd) sp with
      | Some _, Some _ => true
      | _, _ => false
      end
  end.


End EphemerisScript.

Module EphemerisExamples.

Import PyStr Builtins Ephemeris EphemerisScript.

Local Open Scope list_scope.
Local Open Scope string_scope.

(** A line of 66 cells holding the same text. *)
Definition sixtySix (cell : string) : string :=
  String.concat "," (repeat cell 66).

(** The script with the concrete builtins, on exact values. *)
Definition run (fuel : nat) (f : list string) : ending (list string) :=
  script decimal_float Printers.whole_str fuel f.

(** The titles, a day with 350 in every column, a blank line, and a day
    with 10 in every column. *)
Definition two_days : list string :=
  [ sixtySix "title" ++ endl; sixtySix "350" ++ endl; endl; sixtySix "10" ++ endl ].


(** Titles and two days, in rows of [width] cells. *)
Definition cellsWide (width : nat) : list string :=
  [ String.concat "," (repeat "title" width) ++ endl;
    String.concat "," (repeat "350" width) ++ endl;
    String.concat "," (repeat "10" width) ++ endl ].


End EphemerisExamples.

(** * Properties of the longitude engine *)


Section ExactArithmetic.

Import Ephemeris.

Local Open Scope Q_scope.

Lemma Qltb_lt (a b : Q) : Qltb a b = true <-> a < b.
Proof.
  unfold Qltb. rewrite negb_true_iff. split.
  - intros E. apply Qnot_le_lt. intros L.
    apply Qle_bool_iff in L. congruence.
  - intros L. destruct (Qle_bool b a) eqn:E; [|reflexivity].
    apply Qle_bool_iff in E. exfalso. apply (Qlt_not_le _ _ L E).
Qed.

Lemma Qltb_ge (a b : Q) : Qltb a b = false <-> b <= a.
Proof.
  unfold Qltb. rewrite negb_false_iff. apply Qle_bool_iff.
Qed.









(** *** The loops end *)






End ExactArithmetic.

Section AnyFloat.

Import Ephemeris.

Context {F : Type} `{PyFloat F}.








End AnyFloat.

Section ExactEngine.

Import Ephemeris.

Local Open Scope Q_scope.






(** *** The code's branches against the two loops in sequence *)




End ExactEngine.

(** *** The engine on binary64 floats *)

Section Binary64Engine.

Import Ephemeris.

Local Open Scope float_scope.



End Binary64Engine.

Section EngineClaims.

Import Ephemeris.

Local Open Scope Q_scope.






(** The same run on binary64 floats. *)
Lemma unwrap_exactly_330_apart_binary64 :
  columnValues 1 None [0; 330]%float = Some [0; 330]%float.
Proof. reflexivity. Qed.






End EngineClaims.

(** *** The two functions on the rows *)

Section EngineRows.

Import Ephemeris.

Context {F : Type} `{PyFloat F}.
Variable py_float : string -> option F.
Variable py_str : F -> string.




(** Across calls a missing cell is not always caught.  Each call appends a
    cell to every row, so a call that reads the column just past the end of
    a short row finds there the text appended by the call before it: on the
    one-cell row, reading column 0 and then column 1 returns normally. *)
Lemma short_row_reads_the_appended_cell (fuel : nat) (cell : string) (x y : F) :
  py_float cell = Some x ->
  py_float (py_str x) = Some y ->
  nth_error [cell] 1 = None /\
  (rows <- doCalculationsForColumn py_float py_str fuel [[cell]] 0 ;;
   doCalculationsForColumn py_float py_str fuel rows 1)
  = Ok [[cell; py_str x; py_str y]].
Proof.
  intros Ex Ey. split; [reflexivity|].
  unfold doCalculationsForColumn. cbn [forColumn]. unfold cell_value.
  cbn [nth_error or_raise bind]. rewrite Ex.
  cbn [or_raise bind adjust or_diverge app forColumn]. unfold cell_value.
  cbn [nth_error or_raise bind]. rewrite Ey. reflexivity.
Qed.

End EngineRows.

Section EngineFailures.

Import Ephemeris.

Variable py_float : string -> option Q.
Variable py_str : Q -> string.




End EngineFailures.

Section EngineFailureClaims.

Import Ephemeris Builtins Examples.

Local Open Scope string_scope.




End EngineFailureClaims.


Unset Implicit Arguments.

Module WeeklyFacts.

Import PyStr Weekly WeeklyRows.

Local Open Scope string_scope.

Section Facts.

Context {F : Type} `{PyFloat F}.
Variable py_float : string -> option F.
Variable py_int : string -> option Z.
Variable py_isocalendar : Z -> Z -> Z -> option (Z * Z * Z).

Local Abbreviation parseRow := (parseRow py_float py_int py_isocalendar).
Local Abbreviation dataLine := (dataLine py_float py_int py_isocalendar).
Local Abbreviation readLine := (readLine py_float py_int py_isocalendar).
Local Abbreviation readLines := (readLines py_float py_int py_isocalendar).
Local Abbreviation main := (main py_float py_int py_isocalendar).
Local Abbreviation dataRows := (dataRows py_float py_int py_isocalendar).

Lemma later_week (y w cy cw : Z) :
  (y <? cy)%Z = false ->
  ((y =? cy) && (w <? cw))%Z = false ->
  ((y =? cy) && (w =? cw))%Z = false ->
  (((y =? cy) && (w >? cw)) || (y >? cy))%Z = true.
Proof.
  rewrite !Z.gtb_ltb. intros C1 C2 C3.
  apply Z.ltb_ge in C1.
  apply andb_false_iff in C2. apply andb_false_iff in C3.
  rewrite Z.eqb_neq, Z.ltb_ge in C2. rewrite !Z.eqb_neq in C3.
  apply orb_true_iff. rewrite andb_true_iff, Z.eqb_eq, !Z.ltb_lt. lia.
Qed.

(** On a well-formed line the loop body is [rowStep] on its row. *)
Lemma dataLine_parsed (st : state F) (line : string) (r : dailyRow F) :
  parseRow line = Some r ->
  viewed (dataLine st line) = rowStep (view st) r /\
  forall st', dataLine st line = Ok st' -> (i st <= i st')%nat.
Proof.
  unfold WeeklyRows.parseRow, Weekly.dataLine. intros P.
  repeat match type of P with
         | context [if ?c then _ else _] => destruct c eqn:?; try discriminate
         | context [match ?x with _ => _ end] => destruct x eqn:?; try discriminate
         end.
  injection P as <-. cbn [negb or_raise bind].
  repeat (match goal with
          | E : ?x = _ |- context [?x] => rewrite E
          end; cbn [negb or_raise bind]).
  unfold rowStep, view. cbn [fst snd rowIsoYear rowIsoWeek rowLine].
  destruct (currentWeekHasValues (currentWeek st)) eqn:V; cbn [negb].
  - destruct (_ <? _)%Z eqn:C1; [split; [reflexivity|discriminate]|].
    destruct ((_ =? _) && (_ <? _))%Z eqn:C2; [split; [reflexivity|discriminate]|].
    destruct ((_ =? _) && (_ =? _))%Z eqn:C3.
    + unfold sameWeek.
      repeat (match goal with
              | E : ?x = _ |- context [?x] => rewrite E
              end; cbn [negb or_raise bind]).
      split; [unfold viewed, foldWeek, view; cbn; rewrite ?V; reflexivity|].
      intros st' E. injection E as <-. cbn. lia.
    + rewrite (later_week _ _ _ _ C1 C2 C3).
      unfold newWeek.
      repeat (match goal with
              | E : ?x = _ |- context [?x] => rewrite E
              end; cbn [negb or_raise bind]).
      split; [reflexivity|].
      intros st' E. injection E as <-. cbn. lia.
  - unfold newWeek.
    repeat (match goal with
            | E : ?x = _ |- context [?x] => rewrite E
            end; cbn [negb or_raise bind]).
    split; [reflexivity|].
    intros st' E. injection E as <-. cbn. lia.
Qed.



Lemma readLine_blank (st : state F) (line : string) :
  blank line = true ->
  exists st', readLine st line = Ok st' /\ view st' = view st /\ (i st <= i st')%nat.
Proof.
  unfold Weekly.readLine, blank. intros ->. rewrite andb_false_r.
  eexists. split; [reflexivity|]. split; [reflexivity|]. cbn. lia.
Qed.

Lemma readLine_data (st : state F) (line : string) :
  (1 <= i st)%nat -> blank line = false -> readLine st line = dataLine st line.
Proof.
  unfold Weekly.readLine, blank, linesToSkip. intros L ->.
  apply Nat.leb_le in L. rewrite L. reflexivity.
Qed.

(** After the first line, the loop is [rowsRun] on the rows of the non-blank
    lines. *)
Lemma readLines_rows (f : list string) :
  forall (st : state F) (rows : list (dailyRow F)),
    (1 <= i st)%nat ->
    Forall2 (fun line r => parseRow line = Some r)
            (filter (fun line => negb (blank line)) f) rows ->
    viewed (readLines st f) = rowsRun (view st) rows.
Proof.
  induction f as [|line f IH]; intros st rows L P.
  - inversion P; subst. reflexivity.
  - cbn [filter] in P. cbn [Weekly.readLines].
    destruct (blank line) eqn:B; cbn [negb] in P.
    + destruct (readLine_blank st line B) as [st' [-> [V L']]].
      cbn [bind]. rewrite <- V. apply IH; [lia|exact P].
    + inversion P as [|? r ? rows' Pr P']; subst.
      rewrite (readLine_data st line L B).
      destruct (dataLine_parsed st line r Pr) as [E Li].
      cbn [rowsRun]. rewrite <- E.
      destruct (dataLine st line) as [st'| | |]; try reflexivity.
      cbn [viewed bind]. apply IH; [|exact P'].
      specialize (Li st' eq_refl). lia.
Qed.

(** The script on a file whose data lines are well formed. *)
Lemma main_rows (f : list string) (rows : list (dailyRow F)) :
  dataRows f rows -> main f = finished (rowsRun (initialWeek, []) rows).
Proof.
  unfold WeeklyRows.dataRows, entries, Weekly.main. intros P.
  destruct f as [|header f].
  - inversion P; subst. reflexivity.
  - cbn [tl] in P. cbn [Weekly.readLines].
    replace (readLine initialState header)
      with (Ok {| i := 1; currentWeek := @initialWeek F _;
                  convertedLines := [] |}) by reflexivity.
    cbn [bind].
    pose proof (readLines_rows f {| i := 1; currentWeek := @initialWeek F _;
                                    convertedLines := [] |} rows (le_n 1) P) as R.
    change (view _) with (@initialWeek F _, @nil (convertedLine F)) in R.
    rewrite <- R.
    destruct (readLines _ f) as [st| | |]; reflexivity.
Qed.

End Facts.

Section Runs.

Local Open Scope list_scope.

Context {F : Type} `{PyFloat F}.

Implicit Types (w : week F) (r : dailyRow F) (out : list (convertedLine F)).

Lemma key_eqb_eq (k1 k2 : Z * Z) : key_eqb k1 k2 = true <-> k1 = k2.
Proof.
  destruct k1 as [y1 w1], k2 as [y2 w2]. unfold key_eqb. cbn [fst snd].
  rewrite andb_true_iff, !Z.eqb_eq. split; [intros [-> ->]; reflexivity|].
  intros E. injection E as -> ->. split; reflexivity.
Qed.

Lemma key_eqb_neq (k1 k2 : Z * Z) : key_eqb k1 k2 = false <-> k1 <> k2.
Proof.
  rewrite <- key_eqb_eq. destruct (key_eqb k1 k2); split; congruence.
Qed.

Lemma key_lt_irrefl (k : Z * Z) : ~ key_lt k k.
Proof. unfold key_lt. lia. Qed.

Lemma key_lt_trans (k1 k2 k3 : Z * Z) : key_lt k1 k2 -> key_lt k2 k3 -> key_lt k1 k3.
Proof. unfold key_lt. lia. Qed.

Lemma key_total (k1 k2 : Z * Z) : key_le k1 k2 \/ key_lt k2 k1.
Proof.
  destruct k1 as [y1 w1], k2 as [y2 w2]. unfold key_le, key_lt. cbn [fst snd].
  destruct (Z.lt_trichotomy y1 y2) as [L|[E|L]]; [left; left; lia| |right; lia].
  destruct (Z.lt_trichotomy w1 w2) as [L|[E'|L]];
    [left; left; lia| |right; lia].
  left. right. congruence.
Qed.

Lemma rowStep_first w out r :
  currentWeekHasValues w = false -> rowStep (w, out) r = Ok (startWeek r, out).
Proof. unfold rowStep. cbn [fst snd]. intros ->. reflexivity. Qed.

Lemma rowStep_earlier w out r :
  currentWeekHasValues w = true -> key_lt (key r) (weekKey w) ->
  rowStep (w, out) r = SysExit (orderError (rowLine r)).
Proof.
  unfold rowStep, key_lt, key, weekKey. cbn [fst snd]. intros -> L. cbn [negb].
  destruct (rowIsoYear r <? currentWeekIsoYearNumber w)%Z eqn:C1; [reflexivity|].
  apply Z.ltb_ge in C1.
  replace (rowIsoYear r =? currentWeekIsoYearNumber w)%Z with true
    by (symmetry; apply Z.eqb_eq; lia).
  replace (rowIsoWeek r <? currentWeekIsoWeekNumber w)%Z with true
    by (symmetry; apply Z.ltb_lt; lia).
  reflexivity.
Qed.

Lemma rowStep_same w out r :
  currentWeekHasValues w = true -> key r = weekKey w ->
  rowStep (w, out) r = Ok (foldWeek w r, out).
Proof.
  unfold rowStep, key, weekKey. cbn [fst snd]. intros -> E. injection E as -> ->.
  cbn [negb]. rewrite !Z.ltb_irrefl, !Z.eqb_refl. reflexivity.
Qed.

Lemma rowStep_later w out r :
  currentWeekHasValues w = true -> key_lt (weekKey w) (key r) ->
  rowStep (w, out) r = Ok (startWeek r, (out ++ [formatWeek w])%list).
Proof.
  unfold rowStep, key_lt, key, weekKey. cbn [fst snd]. intros -> L. cbn [negb].
  replace (rowIsoYear r <? currentWeekIsoYearNumber w)%Z with false
    by (symmetry; apply Z.ltb_ge; lia).
  destruct (rowIsoYear r =? currentWeekIsoYearNumber w)%Z eqn:C; [|reflexivity].
  apply Z.eqb_eq in C.
  replace (rowIsoWeek r <? currentWeekIsoWeekNumber w)%Z with false
    by (symmetry; apply Z.ltb_ge; lia).
  replace (rowIsoWeek r =? currentWeekIsoWeekNumber w)%Z with false
    by (symmetry; apply Z.eqb_neq; lia).
  reflexivity.
Qed.

Lemma foldWeek_hasValues w r :
  currentWeekHasValues (foldWeek w r) = currentWeekHasValues w.
Proof. reflexivity. Qed.

Lemma foldWeek_key w r : weekKey (foldWeek w r) = weekKey w.
Proof. reflexivity. Qed.

Lemma fold_hasValues (rs : list (dailyRow F)) :
  forall w, currentWeekHasValues (fold_left foldWeek rs w) = currentWeekHasValues w.
Proof.
  induction rs as [|r rs IH]; intros w; [reflexivity|].
  cbn [fold_left]. rewrite IH. reflexivity.
Qed.

Lemma fold_key (rs : list (dailyRow F)) :
  forall w, weekKey (fold_left foldWeek rs w) = weekKey w.
Proof.
  induction rs as [|r rs IH]; intros w; [reflexivity|].
  cbn [fold_left]. rewrite IH. reflexivity.
Qed.

(** The rows of the current week are folded into it. *)
Lemma rowsRun_week (rs more : list (dailyRow F)) :
  forall w out,
    currentWeekHasValues w = true ->
    Forall (fun r => key r = weekKey w) rs ->
    rowsRun (w, out) (rs ++ more) = rowsRun (fold_left foldWeek rs w, out) more.
Proof.
  induction rs as [|r rs IH]; intros w out V S; [reflexivity|].
  inversion S as [|? ? Sr S']; subst.
  cbn [app rowsRun fold_left]. rewrite (rowStep_same w out r V Sr). cbn [bind].
  apply IH; [exact V|exact S'].
Qed.

Lemma weekOfGroup_hasValues (g : dailyRow F * list (dailyRow F)) :
  currentWeekHasValues (weekOfGroup g) = true.
Proof. unfold weekOfGroup. rewrite fold_hasValues. reflexivity. Qed.

Lemma weekOfGroup_key (g : dailyRow F * list (dailyRow F)) :
  weekKey (weekOfGroup g) = key (fst g).
Proof. unfold weekOfGroup. rewrite fold_key. reflexivity. Qed.

(** Week after week, each closes the one before it. *)
Lemma rowsRun_groups (groups : list (dailyRow F * list (dailyRow F))) :
  forall w out,
    currentWeekHasValues w = true ->
    laterWeeks (weekKey w) groups ->
    rowsRun (w, out) (flatten groups) = Ok (closing w out groups).
Proof.
  induction groups as [|[r rs] gs IH]; intros w out V L; [reflexivity|].
  destruct L as [Lk [S L']]. cbn [fst snd] in Lk, S, L'.
  unfold flatten. cbn [flat_map rowsOf fst snd app rowsRun closing].
  rewrite (rowStep_later w out r V Lk). cbn [bind].
  rewrite (rowsRun_week rs _ (startWeek r) _ eq_refl S).
  apply (IH (weekOfGroup (r, rs))).
  - apply weekOfGroup_hasValues.
  - rewrite weekOfGroup_key. exact L'.
Qed.

Lemma closing_finish (groups : list (dailyRow F * list (dailyRow F))) :
  forall w out,
    currentWeekHasValues w = true ->
    finish (closing w out groups) =
    headerLine :: map weekLine (out ++ formatWeek w :: map weekOf groups).
Proof.
  induction groups as [|g gs IH]; intros w out V.
  - unfold finish. cbn [closing fst snd map]. rewrite V. reflexivity.
  - cbn [closing]. rewrite IH by apply weekOfGroup_hasValues.
    rewrite <- app_assoc. reflexivity.
Qed.

(** The run on the rows of well-grouped weeks gives one converted line per
    week. *)
Lemma rowsRun_wellGrouped (groups : list (dailyRow F * list (dailyRow F))) :
  wellGrouped groups ->
  exists a, rowsRun (initialWeek, []) (flatten groups) = Ok a /\
            finish a = headerLine :: map weekLine (map weekOf groups).
Proof.
  destruct groups as [|[r rs] gs]; intros W.
  - exists (initialWeek, []). split; reflexivity.
  - destruct W as [S L]. cbn [fst snd] in S, L.
    exists (closing (weekOfGroup (r, rs)) [] gs). split.
    + unfold flatten. cbn [flat_map rowsOf fst snd app rowsRun].
      rewrite rowStep_first by reflexivity. cbn [bind].
      rewrite (rowsRun_week rs _ (startWeek r) _ eq_refl S).
      apply (rowsRun_groups gs (weekOfGroup (r, rs))).
      * apply weekOfGroup_hasValues.
      * rewrite weekOfGroup_key. exact L.
    + rewrite closing_finish by apply weekOfGroup_hasValues. reflexivity.
Qed.

(** *** The weeks of a chronological input *)

Lemma weeks_flatten (rows : list (dailyRow F)) : flatten (weeks rows) = rows.
Proof.
  induction rows as [|r rest IH]; [reflexivity|].
  cbn [weeks]. destruct (weeks rest) as [|[r' rs] gs].
  - cbn in IH. subst rest. reflexivity.
  - destruct (key_eqb (key r) (key r')); rewrite <- IH; reflexivity.
Qed.

Lemma weeks_head (r : dailyRow F) (rest : list (dailyRow F)) :
  chronological (r :: rest) ->
  exists rs gs, weeks (r :: rest) = (r, rs) :: gs /\
                Forall (fun r' => key r' = key r) rs /\ laterWeeks (key r) gs.
Proof.
  revert r. induction rest as [|r2 rest IH]; intros r C.
  - exists [], []. split; [reflexivity|]. split; constructor.
  - destruct C as [L C]. destruct (IH r2 C) as [rs [gs [W [S Lw]]]].
    cbn [weeks] in W |- *. rewrite W.
    destruct (key_eqb (key r) (key r2)) eqn:E.
    + apply key_eqb_eq in E. exists (r2 :: rs), gs.
      split; [reflexivity|]. rewrite E. split; [|exact Lw].
      constructor; [reflexivity|exact S].
    + apply key_eqb_neq in E. exists [], ((r2, rs) :: gs).
      split; [reflexivity|]. split; [constructor|].
      cbn [laterWeeks fst snd]. split; [|split; assumption].
      destruct L as [L|L]; [exact L|contradiction].
Qed.

Lemma weeks_wellGrouped (rows : list (dailyRow F)) :
  chronological rows -> wellGrouped (weeks rows).
Proof.
  destruct rows as [|r rest]; intros C; [exact I|].
  destruct (weeks_head r rest C) as [rs [gs [-> [S L]]]].
  split; assumption.
Qed.

(** *** The distinct pairs *)

Lemma filter_twice {A} (f : A -> bool) (l : list A) :
  filter f (filter f l) = filter f l.
Proof.
  induction l as [|x l IH]; [reflexivity|]. cbn [filter].
  destruct (f x) eqn:E; [|exact IH]. cbn [filter]. rewrite E, IH. reflexivity.
Qed.

Lemma filter_later (k : Z * Z) (l : list (Z * Z)) :
  Forall (key_lt k) l -> filter (fun k' => negb (key_eqb k' k)) l = l.
Proof.
  induction 1 as [|k' l L _ IH]; [reflexivity|]. cbn [filter].
  replace (key_eqb k' k) with false; [cbn [negb]; rewrite IH; reflexivity|].
  symmetry. apply key_eqb_neq. intros ->. exact (key_lt_irrefl k L).
Qed.

Lemma distinct_same_week (k : Z * Z) (rs tail : list (dailyRow F)) :
  Forall (fun r => key r = k) rs ->
  filter (fun k' => negb (key_eqb k' k)) (distinct (map key (rs ++ tail))) =
  filter (fun k' => negb (key_eqb k' k)) (distinct (map key tail)).
Proof.
  induction 1 as [|r rs E _ IH]; [reflexivity|].
  cbn [app map distinct filter]. rewrite E.
  replace (key_eqb k k) with true by (symmetry; apply key_eqb_eq; reflexivity).
  cbn [negb]. rewrite filter_twice. exact IH.
Qed.

Lemma distinct_laterWeeks (groups : list (dailyRow F * list (dailyRow F))) :
  forall k, laterWeeks k groups ->
            distinct (map key (flatten groups)) = map (fun g => key (fst g)) groups /\
            Forall (key_lt k) (map (fun g => key (fst g)) groups).
Proof.
  induction groups as [|[r rs] gs IH]; intros k L.
  - split; [reflexivity|constructor].
  - destruct L as [Lk [S L]]. cbn [fst snd] in Lk, S, L.
    destruct (IH (key r) L) as [D Fk]. split.
    + unfold flatten in *. cbn [flat_map rowsOf fst snd app map distinct].
      rewrite (distinct_same_week (key r) rs _ S), D, (filter_later _ _ Fk).
      reflexivity.
    + cbn [map fst]. constructor; [exact Lk|].
      eapply Forall_impl; [|exact Fk]. intros k'. apply key_lt_trans. exact Lk.
Qed.

Lemma distinct_wellGrouped (groups : list (dailyRow F * list (dailyRow F))) :
  wellGrouped groups ->
  distinct (map key (flatten groups)) = map (fun g => key (fst g)) groups.
Proof.
  destruct groups as [|[r rs] gs]; [reflexivity|]. intros [S L].
  cbn [fst snd] in S, L. destruct (distinct_laterWeeks gs (key r) L) as [D Fk].
  unfold flatten in *. cbn [flat_map rowsOf fst snd app map distinct].
  rewrite (distinct_same_week (key r) rs _ S), D, (filter_later _ _ Fk).
  reflexivity.
Qed.

(** *** The values of a week *)

Lemma last_cons {A} (x d : A) (l : list A) : last (x :: l) d = last l x.
Proof.
  revert x d. induction l as [|y l IH]; intros x d; [reflexivity|].
  change (last (x :: y :: l) d) with (last (y :: l) d).
  rewrite (IH y d), (IH y x). reflexivity.
Qed.

Lemma last_map {A B} (f : A -> B) (l : list A) (d : A) :
  last (map f l) (f d) = f (last l d).
Proof.
  induction l as [|x l IH]; [reflexivity|].
  cbn [map]. destruct l as [|y l]; [reflexivity|]. exact IH.
Qed.

Lemma fold_dateStr (rs : list (dailyRow F)) :
  forall w, currentWeekDateStr (fold_left foldWeek rs w) = currentWeekDateStr w.
Proof.
  induction rs as [|r rs IH]; intros w; [reflexivity|].
  cbn [fold_left]. rewrite IH. reflexivity.
Qed.

Lemma fold_open (rs : list (dailyRow F)) :
  forall w, currentWeekOpen (fold_left foldWeek rs w) = currentWeekOpen w.
Proof.
  induction rs as [|r rs IH]; intros w; [reflexivity|].
  cbn [fold_left]. rewrite IH. reflexivity.
Qed.

Lemma fold_close (rs : list (dailyRow F)) :
  forall w, currentWeekClose (fold_left foldWeek rs w) =
            last (map rowClose rs) (currentWeekClose w).
Proof.
  induction rs as [|r rs IH]; intros w; [reflexivity|].
  cbn [fold_left map]. rewrite IH, last_cons. reflexivity.
Qed.

Lemma fold_openInt (rs : list (dailyRow F)) :
  forall w, currentWeekOpenInt (fold_left foldWeek rs w) =
            last (map rowOpenInt rs) (currentWeekOpenInt w).
Proof.
  induction rs as [|r rs IH]; intros w; [reflexivity|].
  cbn [fold_left map]. rewrite IH, last_cons. reflexivity.
Qed.

Lemma fold_volume (rs : list (dailyRow F)) :
  forall w, currentWeekVolume (fold_left foldWeek rs w) =
            (currentWeekVolume w + fold_right Z.add 0 (map rowVolume rs))%Z.
Proof.
  induction rs as [|r rs IH]; intros w; cbn [fold_left map fold_right]; [lia|].
  rewrite IH. cbn [foldWeek currentWeekVolume]. lia.
Qed.

Lemma weekOf_summarizes (g : dailyRow F * list (dailyRow F)) :
  summarizes g (weekOf g).
Proof.
  destruct g as [r rs]. unfold summarizes, weekOf, rowsOf, formatWeek.
  cbn [fst snd lineDateStr lineOpen lineClose lineOpenInt lineVolume].
  rewrite fold_dateStr, fold_open, fold_close, fold_openInt, fold_volume, last_cons.
  cbn [startWeek currentWeekDateStr currentWeekOpen currentWeekClose
       currentWeekOpenInt currentWeekVolume map fold_right].
  rewrite !last_map. repeat split; reflexivity.
Qed.

(** *** Rows out of order *)

Lemma rowsRun_app (xs ys : list (dailyRow F)) :
  forall a, rowsRun a (xs ++ ys) = (a' <- rowsRun a xs ;; rowsRun a' ys).
Proof.
  induction xs as [|x xs IH]; intros a; [reflexivity|].
  cbn [app rowsRun]. destruct (rowStep a x); try reflexivity. cbn [bind]. apply IH.
Qed.

(** On rows in order the run goes on, and the current week is the week of
    the last row. *)
Lemma rowsRun_chronological (rows : list (dailyRow F)) :
  forall w out,
    currentWeekHasValues w = true ->
    match rows with
    | [] => True
    | r :: _ => key_le (weekKey w) (key r)
    end ->
    chronological rows ->
    exists w' out',
      rowsRun (w, out) rows = Ok (w', out') /\
      currentWeekHasValues w' = true /\
      weekKey w' = last (map key rows) (weekKey w).
Proof.
  induction rows as [|r rest IH]; intros w out V L C.
  - exists w, out. repeat split; assumption.
  - destruct C as [Lr C]. cbn [rowsRun map]. rewrite last_cons.
    destruct L as [L|L].
    + rewrite (rowStep_later w out r V L). cbn [bind].
      apply (IH (startWeek r)); [reflexivity| |exact C].
      destruct rest; [exact I|exact Lr].
    + rewrite (rowStep_same w out r V (eq_sym L)). cbn [bind].
      destruct (IH (foldWeek w r) out) as [w' [out' [R [V' K]]]];
        [exact V| |exact C|].
      * rewrite foldWeek_key, L. destruct rest; [exact I|exact Lr].
      * exists w', out'. rewrite foldWeek_key, L in K. repeat split; assumption.
Qed.

Lemma rowsRun_chronological_initial (r : dailyRow F) (rest : list (dailyRow F)) :
  chronological (r :: rest) ->
  exists w' out',
    rowsRun (initialWeek, []) (r :: rest) = Ok (w', out') /\
    currentWeekHasValues w' = true /\
    weekKey w' = last (map key (r :: rest)) (key r).
Proof.
  intros [L C]. cbn [rowsRun]. rewrite rowStep_first by reflexivity. cbn [bind].
  destruct (rowsRun_chronological rest (startWeek r) [] eq_refl) as [w' [out' [R [V K]]]].
  - destruct rest; [exact I|exact L].
  - exact C.
  - exists w', out'. cbn [map]. rewrite last_cons. repeat split; assumption.
Qed.

(** The first row of an earlier week than the row before it stops the run
    with the message of the order error, which quotes the line of that row. *)
Lemma rowsRun_out_of_order (good rest : list (dailyRow F)) (prev r : dailyRow F) :
  chronological (good ++ [prev]) ->
  key_lt (key r) (key prev) ->
  rowsRun (initialWeek, []) (good ++ prev :: r :: rest) =
  SysExit (orderError (rowLine r)).
Proof.
  intros C L.
  replace (good ++ prev :: r :: rest) with ((good ++ [prev]) ++ r :: rest)
    by (rewrite <- app_assoc; reflexivity).
  rewrite rowsRun_app.
  destruct (good ++ [prev]) as [|r0 rows] eqn:E; [destruct good; discriminate|].
  destruct (rowsRun_chronological_initial r0 rows C) as [w' [out' [R [V K]]]].
  rewrite R. cbn [bind rowsRun].
  rewrite rowStep_earlier; [reflexivity|exact V|].
  rewrite K, <- E, map_app. cbn [map]. rewrite last_last. exact L.
Qed.

(** Rows that are not in order have a first row out of order. *)
Lemma first_out_of_order (rows : list (dailyRow F)) :
  ~ chronological rows ->
  exists good prev r rest,
    rows = good ++ prev :: r :: rest /\
    chronological (good ++ [prev]) /\
    key_lt (key r) (key prev).
Proof.
  induction rows as [|r1 rows IH]; intros N; [exfalso; apply N; exact I|].
  destruct rows as [|r2 rows]; [exfalso; apply N; split; exact I|].
  destruct (key_total (key r1) (key r2)) as [L|L].
  - destruct IH as [good [prev [r [rest [E [C Lt]]]]]].
    { intros C. apply N. split; assumption. }
    exists (r1 :: good), prev, r, rest. split; [rewrite E; reflexivity|].
    split; [|exact Lt]. cbn [app]. split; [|exact C].
    destruct good as [|g good]; cbn [app] in E |- *; injection E as <-; exact L.
  - exists [], r1, r2, rows. split; [reflexivity|]. split; [|exact L].
    split; exact I.
Qed.

(** *** The first row of each week *)

Lemma key_le_lt (k1 k2 k3 : Z * Z) : key_le k1 k2 -> key_lt k2 k3 -> key_lt k1 k3.
Proof.
  intros [L| ->] L'; [exact (key_lt_trans _ _ _ L L')|exact L'].
Qed.

Lemma opensWeek_later (groups : list (dailyRow F * list (dailyRow F))) :
  forall k pre rows,
    rows = pre ++ flatten groups ->
    Forall (fun r' => key_le (key r') k) pre ->
    laterWeeks k groups ->
    Forall2 (fun g l => opensWeek rows (key (fst g)) l) groups (map weekOf groups).
Proof.
  induction groups as [|[r rs] gs IH]; intros k pre rows E P L; [constructor|].
  destruct L as [Lk [S L]]. cbn [fst snd] in Lk, S, L. cbn [map]. constructor.
  - exists pre, r, (rs ++ flatten gs). cbn [fst]. split; [exact E|].
    split; [reflexivity|]. split; [|apply (weekOf_summarizes (r, rs))].
    eapply Forall_impl; [|exact P]. intros r' Lr Er. cbv beta in Lr.
    rewrite Er in Lr. exact (key_lt_irrefl _ (key_le_lt _ _ _ Lr Lk)).
  - apply (IH (key r) (pre ++ r :: rs)); [|   |exact L].
    + rewrite E. unfold flatten. cbn [flat_map rowsOf fst snd].
      rewrite <- !app_assoc. reflexivity.
    + apply Forall_app. split.
      * eapply Forall_impl; [|exact P]. intros r' Lr. left.
        exact (key_le_lt _ _ _ Lr Lk).
      * constructor; [right; reflexivity|].
        eapply Forall_impl; [|exact S]. intros r' Er. right. exact Er.
Qed.

Lemma opensWeek_wellGrouped (groups : list (dailyRow F * list (dailyRow F))) :
  wellGrouped groups ->
  Forall2 (fun g l => opensWeek (flatten groups) (key (fst g)) l)
          groups (map weekOf groups).
Proof.
  destruct groups as [|[r rs] gs]; intros W; [constructor|].
  destruct W as [S L]. cbn [fst snd] in S, L. cbn [map]. constructor.
  - exists [], r, (rs ++ flatten gs). cbn [fst]. split; [reflexivity|].
    split; [reflexivity|]. split; [constructor|apply (weekOf_summarizes (r, rs))].
  - apply (opensWeek_later gs (key r) (r :: rs)); [reflexivity| |exact L].
    constructor; [right; reflexivity|].
    eapply Forall_impl; [|exact S]. intros r' Er. right. exact Er.
Qed.

Lemma Forall2_map_left {A B C} (f : A -> B) (R : B -> C -> Prop)
  (l : list A) (l' : list C) :
  Forall2 (fun a c => R (f a) c) l l' -> Forall2 R (map f l) l'.
Proof. induction 1; constructor; assumption. Qed.

Lemma Forall2_map_right {A B} (f : A -> B) (R : A -> B -> Prop) (l : list A) :
  (forall a, R a (f a)) -> Forall2 R l (map f l).
Proof. intros P. induction l; constructor; [apply P|assumption]. Qed.

End Runs.

Section Failures.

Local Open Scope list_scope.

Context {F : Type} `{PyFloat F}.
Variable py_float : string -> option F.
Variable py_int : string -> option Z.
Variable py_isocalendar : Z -> Z -> Z -> option (Z * Z * Z).

Local Abbreviation parseRow := (parseRow py_float py_int py_isocalendar).
Local Abbreviation dataLine := (dataLine py_float py_int py_isocalendar).
Local Abbreviation readLine := (readLine py_float py_int py_isocalendar).
Local Abbreviation readLines := (readLines py_float py_int py_isocalendar).
Local Abbreviation main := (main py_float py_int py_isocalendar).
Local Abbreviation dataRows := (dataRows py_float py_int py_isocalendar).

(** The line counter never goes down. *)
Lemma dataLine_i (st st' : state F) (line : string) :
  dataLine st line = Ok st' -> (i st <= i st')%nat.
Proof.
  unfold Weekly.dataLine, newWeek, sameWeek.
  repeat (cbn [bind or_raise negb];
          match goal with
          | |- context [or_raise ?x _] => destruct x
          | |- context [if ?c then _ else _] => destruct c
          | |- context [let '(_, _) := ?p in _] => destruct p
          end);
    cbn [bind or_raise negb]; intros E; try discriminate;
    injection E as <-; cbn [i]; lia.
Qed.

Lemma readLine_i (st st' : state F) (line : string) :
  readLine st line = Ok st' -> (i st <= i st')%nat.
Proof.
  unfold Weekly.readLine.
  destruct ((linesToSkip <=? i st)%nat && negb (strip line =? "")).
  - apply dataLine_i.
  - intros E. injection E as <-. cbn [i]. lia.
Qed.

Lemma readLines_i (f : list string) :
  forall st st', readLines st f = Ok st' -> (i st <= i st')%nat.
Proof.
  induction f as [|line f IH]; intros st st' E; cbn [Weekly.readLines] in E.
  - injection E as <-. lia.
  - destruct (readLine st line) as [st1| | |] eqn:R; try discriminate.
    cbn [bind] in E. apply readLine_i in R. apply IH in E. lia.
Qed.

Lemma readLines_app (xs ys : list string) :
  forall st, readLines st (xs ++ ys) = (st' <- readLines st xs ;; readLines st' ys).
Proof.
  induction xs as [|x xs IH]; intros st; [reflexivity|].
  cbn [app Weekly.readLines]. destruct (readLine st x); try reflexivity.
  cbn [bind]. apply IH.
Qed.



(** *** The script on whole files *)

(** On a well-formed file whose rows are in week order, the script writes the
    header and one line per week. *)
Lemma main_chronological (f : list string) (rows : list (dailyRow F)) :
  dataRows f rows -> chronological rows ->
  main f = Ok (headerLine :: map weekLine (map weekOf (weeks rows))).
Proof.
  intros P C. rewrite (main_rows _ _ _ f rows P).
  destruct (rowsRun_wellGrouped (weeks rows) (weeks_wellGrouped rows C))
    as [a [R Fa]].
  rewrite weeks_flatten in R. rewrite R. cbn [finished bind]. rewrite Fa.
  reflexivity.
Qed.

(** On a well-formed file, the first row of an earlier week than the row
    before it stops the script. *)
Lemma main_out_of_order (f : list string) (good rest : list (dailyRow F))
  (prev r : dailyRow F) :
  dataRows f (good ++ prev :: r :: rest) ->
  chronological (good ++ [prev]) ->
  key_lt (key r) (key prev) ->
  main f = SysExit (orderError (rowLine r)).
Proof.
  intros P C L. rewrite (main_rows _ _ _ f _ P).
  rewrite (rowsRun_out_of_order good rest prev r C L). reflexivity.
Qed.



End Failures.

End WeeklyFacts.

(** * The calendar: dates in order are in week order *)

Module CalendarFacts.

Import Builtins WeeklyRows WeeklyFacts.

Local Open Scope Z_scope.

Lemma days_before_year_succ (y : Z) :
  days_before_year (y + 1) = days_before_year y + year_length y.
Proof.
  unfold days_before_year, year_length, is_leap.
  replace (y + 1 - 1) with y by lia.
  destruct (Z.eqb_spec (y mod 4) 0), (Z.eqb_spec (y mod 100) 0),
    (Z.eqb_spec (y mod 400) 0); cbn [andb orb negb];
    Z.div_mod_to_equations; lia.
Qed.

Lemma year_length_bounds (y : Z) : 365 <= year_length y <= 366.
Proof. unfold year_length. destruct (is_leap y); lia. Qed.

Lemma days_before_year_mono (a b : Z) :
  a <= b -> days_before_year a + 365 * (b - a) <= days_before_year b.
Proof.
  unfold days_before_year. intros L. Z.div_mod_to_equations. lia.
Qed.

Ltac months m :=
  let Hm := fresh in
  assert (Hm : m = 1 \/ m = 2 \/ m = 3 \/ m = 4 \/ m = 5 \/ m = 6 \/ m = 7 \/
               m = 8 \/ m = 9 \/ m = 10 \/ m = 11 \/ m = 12) by lia;
  repeat (destruct Hm as [Hm|Hm]; [subst m|]); [..|subst m].

Lemma day_of_year_bounds (y m d : Z) :
  valid_date y m d -> 1 <= days_before_month y m + d <= year_length y.
Proof.
  intros [Hm Hd]. unfold year_length.
  months m; unfold days_before_month, days_in_month in *;
    cbn [Z.gtb Z.compare Pos.compare Pos.compare_cont andb] in *;
    destruct (is_leap y); lia.
Qed.

Lemma month_order (y m1 d1 m2 d2 : Z) :
  valid_date y m1 d1 -> valid_date y m2 d2 -> m1 < m2 ->
  days_before_month y m1 + d1 < days_before_month y m2 + d2.
Proof.
  intros [Hm1 Hd1] [Hm2 Hd2] L.
  months m1; months m2; try lia;
    unfold days_before_month, days_in_month in *;
    cbn [Z.gtb Z.compare Pos.compare Pos.compare_cont andb] in *;
    destruct (is_leap y); lia.
Qed.

(** The ordinal of a date grows with the date. *)
Lemma ymd2ord_mono (y1 m1 d1 y2 m2 d2 : Z) :
  valid_date y1 m1 d1 -> valid_date y2 m2 d2 ->
  date_le (y1, m1, d1) (y2, m2, d2) ->
  ymd2ord y1 m1 d1 <= ymd2ord y2 m2 d2.
Proof.
  intros V1 V2 L. unfold ymd2ord. cbn in L.
  destruct L as [L|[-> [L|[-> L]]]].
  - pose proof (day_of_year_bounds _ _ _ V1).
    pose proof (day_of_year_bounds _ _ _ V2).
    pose proof (days_before_year_succ y1).
    pose proof (days_before_year_mono (y1 + 1) y2 ltac:(lia)). lia.
  - pose proof (month_order _ _ _ _ _ V1 V2 L). lia.
  - lia.
Qed.

(** The Monday of ISO week 1 is a Monday (ordinal 1 is one), at most three
    days before and three days after the first of January. *)
Lemma isoweek1monday_facts (y : Z) :
  isoweek1monday y mod 7 = 1 /\
  days_before_year y - 2 <= isoweek1monday y <= days_before_year y + 4.
Proof.
  unfold isoweek1monday, ymd2ord. change (days_before_month y 1) with 0.
  destruct (Z.gtb_spec ((days_before_year y + 0 + 1 + 6) mod 7) 3);
    Z.div_mod_to_equations; lia.
Qed.

Lemma isoweek1monday_mono (a b : Z) :
  a < b -> isoweek1monday a + 364 <= isoweek1monday b.
Proof.
  intros L.
  destruct (isoweek1monday_facts a) as [Ma Ba].
  destruct (isoweek1monday_facts b) as [Mb Bb].
  pose proof (days_before_year_mono (a + 1) b ltac:(lia)).
  pose proof (days_before_year_succ a). pose proof (year_length_bounds a).
  Z.div_mod_to_equations. lia.
Qed.

Lemma gregorian_isocalendar_valid (y m d : Z) (iso : Z * Z * Z) :
  gregorian_isocalendar y m d = Some iso -> valid_date y m d.
Proof.
  unfold gregorian_isocalendar, valid_date.
  destruct ((1 <=? y) && (y <=? 9999) && (1 <=? m) && (m <=? 12)
            && (1 <=? d) && (d <=? days_in_month y m)) eqn:V; [|discriminate].
  intros _. rewrite !andb_true_iff, !Z.leb_le in V. lia.
Qed.

(** The ISO year of a date is the year whose week 1 Monday is the last at or
    before the date, and its ISO week counts the weeks from that Monday. *)
Lemma gregorian_isocalendar_week (y m d iy iw wd : Z) :
  gregorian_isocalendar y m d = Some (iy, iw, wd) ->
  isoweek1monday iy <= ymd2ord y m d < isoweek1monday (iy + 1) /\
  iw = (ymd2ord y m d - isoweek1monday iy) / 7 + 1.
Proof.
  intros E. pose proof (gregorian_isocalendar_valid _ _ _ _ E) as V.
  pose proof (day_of_year_bounds _ _ _ V) as B.
  unfold gregorian_isocalendar in E.
  destruct (_ && _) in E; [|discriminate]. cbv zeta in E.
  unfold ymd2ord in *.
  pose proof (isoweek1monday_facts y) as [M0 B0].
  pose proof (isoweek1monday_facts (y - 1)) as [M1 B1].
  pose proof (isoweek1monday_facts (y + 1)) as [M2 B2].
  pose proof (isoweek1monday_facts (y + 1 + 1)) as [M3 B3].
  pose proof (days_before_year_succ y) as S0.
  pose proof (days_before_year_succ (y - 1)) as S1.
  replace (y - 1 + 1) with y in S1 by lia.
  pose proof (days_before_year_succ (y + 1)) as S2.
  pose proof (year_length_bounds y). pose proof (year_length_bounds (y - 1)).
  pose proof (year_length_bounds (y + 1)).
  destruct (Z.ltb_spec ((days_before_year y + days_before_month y m + d
                         - isoweek1monday y) / 7) 0) as [L|L].
  - injection E as <- <- <-. replace (y - 1 + 1) with y by lia.
    split; [|reflexivity]. Z.div_mod_to_equations. lia.
  - destruct (Z.geb_spec ((days_before_year y + days_before_month y m + d
                           - isoweek1monday y) / 7) 52) as [L52|L52];
      destruct (Z.geb_spec (days_before_year y + days_before_month y m + d)
                  (isoweek1monday (y + 1))) as [Ln|Ln];
      cbn [andb] in E; injection E as <- <- <-;
      (split; [|try reflexivity]); Z.div_mod_to_equations; lia.
Qed.

(** A later date is of the same or of a later ISO (year, week) pair. *)
Lemma gregorian_week_order (y1 m1 d1 y2 m2 d2 iy1 iw1 wd1 iy2 iw2 wd2 : Z) :
  gregorian_isocalendar y1 m1 d1 = Some (iy1, iw1, wd1) ->
  gregorian_isocalendar y2 m2 d2 = Some (iy2, iw2, wd2) ->
  date_le (y1, m1, d1) (y2, m2, d2) ->
  key_le (iy1, iw1) (iy2, iw2).
Proof.
  intros E1 E2 L.
  pose proof (ymd2ord_mono _ _ _ _ _ _ (gregorian_isocalendar_valid _ _ _ _ E1)
                (gregorian_isocalendar_valid _ _ _ _ E2) L) as O.
  apply gregorian_isocalendar_week in E1, E2.
  destruct E1 as [[A1 B1] W1], E2 as [[A2 B2] W2].
  unfold key_le, key_lt. cbn [fst snd].
  destruct (Z.lt_trichotomy iy1 iy2) as [Ly|[Ey|Ly]].
  - left. left. exact Ly.
  - subst iy2.
    assert (iw1 <= iw2) by (subst iw1 iw2; Z.div_mod_to_equations; lia).
    destruct (Z.eq_dec iw1 iw2) as [->|N]; [right; reflexivity|left; right; lia].
  - exfalso.
    assert (isoweek1monday (iy2 + 1) <= isoweek1monday iy1).
    { destruct (Z.eq_dec (iy2 + 1) iy1) as [->|N]; [lia|].
      pose proof (isoweek1monday_mono (iy2 + 1) iy1 ltac:(lia)). lia. }
    lia.
Qed.

Section RowsOfTheCalendar.

Context {F : Type} `{PyFloat F}.
Variable py_float : string -> option F.
Variable py_int : string -> option Z.
Variable py_isocalendar : Z -> Z -> Z -> option (Z * Z * Z).

(** The ISO pair of a row is the one the calendar gives for its date. *)
Lemma parseRow_calendar (line : string) (r : dailyRow F) :
  parseRow py_float py_int py_isocalendar line = Some r ->
  exists wd,
    py_isocalendar (fst (fst (rowDate r))) (snd (fst (rowDate r))) (snd (rowDate r))
    = Some (rowIsoYear r, rowIsoWeek r, wd).
Proof.
  unfold parseRow. intros P.
  repeat match type of P with
         | context [if ?c then _ else _] => destruct c eqn:?; try discriminate
         | context [match ?x with _ => _ end] => destruct x eqn:?; try discriminate
         end.
  injection P as <-. cbn [rowDate rowIsoYear rowIsoWeek fst snd].
  eexists. eassumption.
Qed.

End RowsOfTheCalendar.

(** With the Gregorian calendar, well-formed rows in date order are in week
    order. *)
Lemma datesInOrder_chronological {F : Type} `{PyFloat F}
  (py_float : string -> option F) (py_int : string -> option Z)
  (lines : list string) (rows : list (dailyRow F)) :
  Forall2 (fun line r => parseRow py_float py_int gregorian_isocalendar line = Some r)
          lines rows ->
  datesInOrder rows -> chronological rows.
Proof.
  induction 1 as [|line r lines rows P Ps IH]; intros D; [exact I|].
  destruct D as [D Ds]. split; [|exact (IH Ds)].
  destruct Ps as [|line2 r2 lines' rows' P2 _]; [exact I|].
  destruct (parseRow_calendar _ _ _ _ _ P) as [wd E].
  destruct (parseRow_calendar _ _ _ _ _ P2) as [wd2 E2].
  destruct (rowDate r) as [[y m] d], (rowDate r2) as [[y2 m2] d2].
  cbn [fst snd] in E, E2.
  exact (gregorian_week_order _ _ _ _ _ _ _ _ _ _ _ _ E E2 D).
Qed.

End CalendarFacts.

(** * The extrema of a week, on exact prices *)

Section Extrema.

Import Weekly WeeklyRows WeeklyFacts.

Local Open Scope Q_scope.

Ltac order_facts :=
  repeat match goal with
         | E : Qltb _ _ = true |- _ => apply Qltb_lt in E
         | E : Qltb _ _ = false |- _ => apply Qltb_ge in E
         end.

(** The first and the last of the four sorted prices. *)
Lemma sorted_prices (o h l c : Q) :
  least (hd o (sort [o; h; l; c])) [o; h; l; c] /\
  greatest (last (sort [o; h; l; c]) o) [o; h; l; c].
Proof.
  unfold sort, least, greatest. cbn [fold_left insert flt exact].
  repeat (match goal with
          | |- context [if Qltb ?a ?b then _ else _] => destruct (Qltb a b) eqn:?
          end; cbn [insert flt exact]);
    order_facts; cbn [hd last];
    (split; split;
     [cbn [In]; auto 6 | repeat constructor; lra
     |cbn [In]; auto 6 | repeat constructor; lra]).
Qed.

Lemma foldWeek_extrema (w : week Q) (r : dailyRow Q) (hi lo : list Q) :
  greatest (currentWeekHigh w) hi -> least (currentWeekLow w) lo ->
  greatest (currentWeekHigh (foldWeek w r)) (hi ++ prices r) /\
  least (currentWeekLow (foldWeek w r)) (lo ++ prices r).
Proof.
  intros [Ih Fh] [Il Fl].
  destruct (sorted_prices (rowOpen r) (rowHigh r) (rowLow r) (rowClose r))
    as [[Is Fs] [Ig Fg]].
  unfold foldWeek, prices, fgt. cbn [currentWeekHigh currentWeekLow flt exact].
  split.
  - destruct (Qltb (currentWeekHigh w) _) eqn:E; order_facts; split.
    + apply in_or_app. right. exact Ig.
    + apply Forall_app. split; [|exact Fg].
      eapply Forall_impl; [|exact Fh]. intros v Lv. cbv beta in Lv. lra.
    + apply in_or_app. left. exact Ih.
    + apply Forall_app. split; [exact Fh|].
      eapply Forall_impl; [|exact Fg]. intros v Lv. cbv beta in Lv.
      eapply Qle_trans; eassumption.
  - destruct (Qltb _ (currentWeekLow w)) eqn:E; order_facts; split.
    + apply in_or_app. right. exact Is.
    + apply Forall_app. split; [|exact Fs].
      eapply Forall_impl; [|exact Fl]. intros v Lv. cbv beta in Lv. lra.
    + apply in_or_app. left. exact Il.
    + apply Forall_app. split; [exact Fl|].
      eapply Forall_impl; [|exact Fs]. intros v Lv. cbv beta in Lv.
      eapply Qle_trans; eassumption.
Qed.

Lemma fold_extrema (rs : list (dailyRow Q)) :
  forall (w : week Q) (hi lo : list Q),
    greatest (currentWeekHigh w) hi -> least (currentWeekLow w) lo ->
    greatest (currentWeekHigh (fold_left foldWeek rs w)) (hi ++ flat_map prices rs) /\
    least (currentWeekLow (fold_left foldWeek rs w)) (lo ++ flat_map prices rs).
Proof.
  induction rs as [|r rs IH]; intros w hi lo Gh Gl.
  - cbn [fold_left flat_map]. rewrite !app_nil_r. split; assumption.
  - cbn [fold_left flat_map]. rewrite !app_assoc.
    destruct (foldWeek_extrema w r hi lo Gh Gl) as [Gh' Gl'].
    apply IH; assumption.
Qed.

(** What the script reports as the high and the low of a week: the greatest
    of the high of its first row and of all four prices of its later rows,
    and the least of the low of its first row and of all four prices of its
    later rows. *)
Lemma weekOf_extrema (g : dailyRow Q * list (dailyRow Q)) :
  greatest (lineHigh (weekOf g)) (rowHigh (fst g) :: flat_map prices (snd g)) /\
  least (lineLow (weekOf g)) (rowLow (fst g) :: flat_map prices (snd g)).
Proof.
  destruct g as [r rs]. unfold weekOf, formatWeek. cbn [lineHigh lineLow fst snd].
  apply (fold_extrema rs (startWeek r) [rowHigh r] [rowLow r]).
  - split; [left; reflexivity|]. repeat constructor. cbn. lra.
  - split; [left; reflexivity|]. repeat constructor. cbn. lra.
Qed.

(** Where the first row of the week has its open, low and close at or below
    its high, and its open, high and close at or above its low, they are the
    extrema over all four prices of all the rows of the week. *)
Lemma weekOf_extrema_consistent_first_row (g : dailyRow Q * list (dailyRow Q)) :
  Forall (fun v => rowLow (fst g) <= v /\ v <= rowHigh (fst g)) (prices (fst g)) ->
  greatest (lineHigh (weekOf g)) (flat_map prices (rowsOf g)) /\
  least (lineLow (weekOf g)) (flat_map prices (rowsOf g)).
Proof.
  intros B. destruct (weekOf_extrema g) as [[Ih Fh] [Il Fl]].
  destruct g as [r rs]. cbn [fst snd rowsOf flat_map] in *.
  inversion Fh as [|? ? Fh0 Fh']; subst. inversion Fl as [|? ? Fl0 Fl']; subst.
  split; split.
  - destruct Ih as [<-|Ih]; [cbn; auto|].
    apply in_or_app. right. exact Ih.
  - apply Forall_app. split; [|exact Fh'].
    eapply Forall_impl; [|exact B]. intros v [_ Lv]. cbv beta.
    eapply Qle_trans; eassumption.
  - destruct Il as [<-|Il]; [cbn; auto|].
    apply in_or_app. right. exact Il.
  - apply Forall_app. split; [|exact Fl'].
    eapply Forall_impl; [|exact B]. intros v [Lv _]. cbv beta.
    eapply Qle_trans; eassumption.
Qed.

End Extrema.

(** * The claims about the weekly aggregator *)

Section AggregatorClaims.

Import PyStr Builtins Examples Weekly WeeklyRows WeeklyFacts.

Local Open Scope string_scope.
Local Open Scope list_scope.
Local Open Scope Q_scope.

Lemma rowsOfLines_dataRows (f : list string) (rows : list (dailyRow Q)) :
  rowsOfLines (entries f) = Some rows ->
  dataRows decimal_float decimal_int gregorian_isocalendar f rows.
Proof.
  unfold dataRows. generalize (entries f). intros lines. revert rows.
  induction lines as [|line lines IH]; intros rows E; cbn [rowsOfLines] in E.
  - injection E as <-. constructor.
  - destruct (parseRow _ _ _ line) as [r|] eqn:P; [|discriminate].
    destruct (rowsOfLines lines) as [rows'|]; [|discriminate].
    injection E as <-. constructor; [exact P|apply IH; reflexivity].
Qed.

(** C8.  On every well-formed input whose rows are in week order (as are,
    with the Gregorian calendar, the rows of every input in date order) the
    script writes the header and one line per week of the input, and the
    line of a week has the date and the open of the first row of the week,
    the close and the open interest of its last row, and the sum of the
    volumes of its rows.  The Monday-to-Friday example gives the single line
    open 10, high 15, low 8, close 14, volume 1000, open interest Friday's. *)
Theorem weekly_line_summarizes_its_week :
  (forall (F : Type) (H : PyFloat F) (py_float : string -> option F)
          (py_int : string -> option Z)
          (py_isocalendar : Z -> Z -> Z -> option (Z * Z * Z))
          (f : list string) (rows : list (dailyRow F)),
      dataRows py_float py_int py_isocalendar f rows ->
      chronological rows ->
      exists out,
        main py_float py_int py_isocalendar f = Ok (headerLine :: map weekLine out) /\
        flatten (weeks rows) = rows /\
        wellGrouped (weeks rows) /\
        Forall2 summarizes (weeks rows) out) /\
  (forall (F : Type) (H : PyFloat F) (py_float : string -> option F)
          (py_int : string -> option Z)
          (f : list string) (rows : list (dailyRow F)),
      dataRows py_float py_int gregorian_isocalendar f rows ->
      datesInOrder rows ->
      exists out,
        main py_float py_int gregorian_isocalendar f
        = Ok (headerLine :: map weekLine out) /\
        flatten (weeks rows) = rows /\
        wellGrouped (weeks rows) /\
        Forall2 summarizes (weeks rows) out) /\
  run mon_fri =
  Ok [headerLine;
      weekLine {| lineDateStr := "01/06/2020"; lineOpen := 10; lineHigh := 15;
                  lineLow := 8; lineClose := 14; lineVolume := 1000;
                  lineOpenInt := 9 |}].
Proof.
  assert (A : forall (F : Type) (H : PyFloat F) (py_float : string -> option F)
                     (py_int : string -> option Z)
                     (py_isocalendar : Z -> Z -> Z -> option (Z * Z * Z))
                     (f : list string) (rows : list (dailyRow F)),
             dataRows py_float py_int py_isocalendar f rows ->
             chronological rows ->
             exists out,
               main py_float py_int py_isocalendar f
               = Ok (headerLine :: map weekLine out) /\
               flatten (weeks rows) = rows /\
               wellGrouped (weeks rows) /\
               Forall2 summarizes (weeks rows) out).
  { intros F H py_float py_int py_isocalendar f rows P C.
    exists (map weekOf (weeks rows)).
    split; [exact (main_chronological _ _ _ f rows P C)|].
    split; [apply weeks_flatten|]. split; [exact (weeks_wellGrouped rows C)|].
    apply Forall2_map_right. apply weekOf_summarizes. }
  split; [exact A|]. split; [|reflexivity].
  intros F H py_float py_int f rows P D.
  apply A; [exact P|].
  exact (CalendarFacts.datesInOrder_chronological py_float py_int _ rows P D).
Qed.

Lemma weekly_line_summarizes_its_week_witness :
  exists rows,
    dataRows decimal_float decimal_int gregorian_isocalendar mon_fri rows /\
    datesInOrder rows /\
    exists out,
      run mon_fri = Ok (headerLine :: map weekLine out) /\
      flatten (weeks rows) = rows /\
      wellGrouped (weeks rows) /\
      Forall2 summarizes (weeks rows) out.
Proof.
  destruct (rowsOfLines (entries mon_fri)) as [rows|] eqn:E;
    [|vm_compute in E; discriminate].
  exists rows.
  assert (P : dataRows decimal_float decimal_int gregorian_isocalendar mon_fri rows)
    by (apply rowsOfLines_dataRows; exact E).
  assert (D : datesInOrder rows).
  { vm_compute in E. injection E as <-.
    repeat split; cbn; lia. }
  split; [exact P|]. split; [exact D|].
  exact (proj1 (proj2 weekly_line_summarizes_its_week) Q exact
           decimal_float decimal_int mon_fri rows P D).
Defined.

(** C9.  On every well-formed input whose rows are in week order (as are,
    with the Gregorian calendar, the rows of every input in date order), the
    script writes as many weekly lines as there are distinct ISO (year, week)
    pairs among the rows, in the order the pairs are first met: the n-th line
    is dated by the first row of the n-th distinct pair. *)
Theorem one_line_per_distinct_week :
  (forall (F : Type) (H : PyFloat F) (py_float : string -> option F)
          (py_int : string -> option Z)
          (py_isocalendar : Z -> Z -> Z -> option (Z * Z * Z))
          (f : list string) (rows : list (dailyRow F)),
      dataRows py_float py_int py_isocalendar f rows ->
      chronological rows ->
      exists out,
        main py_float py_int py_isocalendar f = Ok (headerLine :: map weekLine out) /\
        length out = length (distinct (map key rows)) /\
        Forall2 (opensWeek rows) (distinct (map key rows)) out) /\
  (forall (F : Type) (H : PyFloat F) (py_float : string -> option F)
          (py_int : string -> option Z)
          (f : list string) (rows : list (dailyRow F)),
      dataRows py_float py_int gregorian_isocalendar f rows ->
      datesInOrder rows ->
      exists out,
        main py_float py_int gregorian_isocalendar f
        = Ok (headerLine :: map weekLine out) /\
        length out = length (distinct (map key rows)) /\
        Forall2 (opensWeek rows) (distinct (map key rows)) out).
Proof.
  assert (A : forall (F : Type) (H : PyFloat F) (py_float : string -> option F)
                     (py_int : string -> option Z)
                     (py_isocalendar : Z -> Z -> Z -> option (Z * Z * Z))
                     (f : list string) (rows : list (dailyRow F)),
             dataRows py_float py_int py_isocalendar f rows ->
             chronological rows ->
             exists out,
               main py_float py_int py_isocalendar f
               = Ok (headerLine :: map weekLine out) /\
               length out = length (distinct (map key rows)) /\
               Forall2 (opensWeek rows) (distinct (map key rows)) out).
  { intros F H py_float py_int py_isocalendar f rows P C.
    exists (map weekOf (weeks rows)).
    pose proof (weeks_wellGrouped rows C) as W.
    pose proof (distinct_wellGrouped (weeks rows) W) as D.
    rewrite weeks_flatten in D.
    split; [exact (main_chronological _ _ _ f rows P C)|].
    rewrite D, !length_map. split; [reflexivity|].
    apply Forall2_map_left.
    pose proof (opensWeek_wellGrouped (weeks rows) W) as O.
    rewrite weeks_flatten in O. exact O. }
  split; [exact A|].
  intros F H py_float py_int f rows P D.
  apply A; [exact P|].
  exact (CalendarFacts.datesInOrder_chronological py_float py_int _ rows P D).
Qed.

Lemma one_line_per_distinct_week_witness :
  exists rows,
    dataRows decimal_float decimal_int gregorian_isocalendar two_weeks rows /\
    datesInOrder rows /\
    distinct (map key rows) = [(2020, 1); (2020, 2)]%Z /\
    exists out,
      run two_weeks = Ok (headerLine :: map weekLine out) /\
      length out = length (distinct (map key rows)) /\
      Forall2 (opensWeek rows) (distinct (map key rows)) out.
Proof.
  destruct (rowsOfLines (entries two_weeks)) as [rows|] eqn:E;
    [|vm_compute in E; discriminate].
  exists rows.
  assert (P : dataRows decimal_float decimal_int gregorian_isocalendar two_weeks rows)
    by (apply rowsOfLines_dataRows; exact E).
  assert (D : datesInOrder rows /\
              distinct (map key rows) = [(2020, 1); (2020, 2)]%Z).
  { vm_compute in E. injection E as <-.
    split; [repeat split; cbn; lia|reflexivity]. }
  destruct D as [D K].
  split; [exact P|]. split; [exact D|]. split; [exact K|].
  exact (proj2 one_line_per_distinct_week Q exact decimal_float decimal_int
           two_weeks rows P D).
Defined.

(** C5, as the code has it.  On a well-formed input in which some row is of
    an earlier ISO (year, week) pair than the row before it, the script
    prints the order error quoting the line of the first such row and exits
    with status 1 before it opens the output file. *)
Theorem earlier_week_is_an_order_error
  (F : Type) (H : PyFloat F) (py_float : string -> option F)
  (py_int : string -> option Z) (py_isocalendar : Z -> Z -> Z -> option (Z * Z * Z))
  (f : list string) (rows : list (dailyRow F)) :
  dataRows py_float py_int py_isocalendar f rows ->
  ~ chronological rows ->
  exists good prev r rest,
    rows = good ++ prev :: r :: rest /\
    chronological (good ++ [prev]) /\
    key_lt (key r) (key prev) /\
    main py_float py_int py_isocalendar f = SysExit (orderError (rowLine r)).
Proof.
  intros P N.
  destruct (first_out_of_order rows N) as [good [prev [r [rest [E [C L]]]]]].
  exists good, prev, r, rest. split; [exact E|]. split; [exact C|].
  split; [exact L|]. subst rows.
  exact (main_out_of_order _ _ _ f good rest prev r P C L).
Qed.

Lemma earlier_week_is_an_order_error_witness :
  exists rows,
    dataRows decimal_float decimal_int gregorian_isocalendar weeks_out_of_order rows /\
    ~ chronological rows /\
    (exists good prev r rest,
        rows = good ++ prev :: r :: rest /\
        chronological (good ++ [prev]) /\
        key_lt (key r) (key prev) /\
        run weeks_out_of_order = SysExit (orderError (rowLine r))) /\
    run weeks_out_of_order = SysExit (orderError "01/06/2020,10,12,9,11,100,5").
Proof.
  destruct (rowsOfLines (entries weeks_out_of_order)) as [rows|] eqn:E;
    [|vm_compute in E; discriminate].
  exists rows.
  assert (P : dataRows decimal_float decimal_int gregorian_isocalendar
                weeks_out_of_order rows)
    by (apply rowsOfLines_dataRows; exact E).
  assert (N : ~ chronological rows).
  { vm_compute in E. injection E as <-. intros [[L|L] _].
    - unfold key_lt in L. cbn in L. lia.
    - discriminate. }
  split; [exact P|]. split; [exact N|]. split; [|reflexivity].
  exact (earlier_week_is_an_order_error Q exact decimal_float decimal_int
           gregorian_isocalendar weeks_out_of_order rows P N).
Defined.

(** C5 as stated fails: a Wednesday followed by the Monday of the same ISO
    week is not in chronological order, and the script writes its output. *)
Lemma earlier_day_of_the_week_is_accepted :
  ~ (forall (f : list string) (rows : list (dailyRow Q)),
        dataRows decimal_float decimal_int gregorian_isocalendar f rows ->
        ~ datesInOrder rows ->
        exists printed, run f = SysExit printed).
Proof.
  intros C.
  destruct (rowsOfLines (entries days_out_of_order)) as [rows|] eqn:E;
    [|vm_compute in E; discriminate].
  assert (P : dataRows decimal_float decimal_int gregorian_isocalendar
                days_out_of_order rows)
    by (apply rowsOfLines_dataRows; exact E).
  assert (N : ~ datesInOrder rows).
  { vm_compute in E. injection E as <-. intros [L _]. cbn in L. lia. }
  destruct (C days_out_of_order rows P N) as [printed R].
  vm_compute in R. discriminate.
Qed.

(** What the script does there: one weekly line, dated by the Wednesday. *)
Lemma earlier_day_of_the_week_run :
  run days_out_of_order =
  Ok [headerLine;
      weekLine {| lineDateStr := "01/08/2020"; lineOpen := 9; lineHigh := 12;
                  lineLow := 8; lineClose := 11; lineVolume := 250;
                  lineOpenInt := 5 |}].
Proof. reflexivity. Qed.




(** C4 on the code: the weekly high of the first file is 15 although the
    week's first row opens at 20, and the weekly low of the second is 8
    although the week's first row closes at 7; the open and the close of the
    row that starts a week are left out of the extrema. *)
Theorem first_row_open_and_close_are_left_out :
  run open_above_high =
  Ok [headerLine;
      weekLine {| lineDateStr := "01/06/2020"; lineOpen := 20; lineHigh := 15;
                  lineLow := 8; lineClose := 19 # 2; lineVolume := 250;
                  lineOpenInt := 7 |}] /\
  run close_below_low =
  Ok [headerLine;
      weekLine {| lineDateStr := "01/06/2020"; lineOpen := 10; lineHigh := 12;
                  lineLow := 8; lineClose := 19 # 2; lineVolume := 250;
                  lineOpenInt := 7 |}].
Proof. split; reflexivity. Qed.

End AggregatorClaims.

(** * More on the weekly aggregator: what the script writes, and when *)

Module WeeklyMore.

Import PyStr Weekly WeeklyRows WeeklyFacts.

Local Open Scope string_scope.
Local Open Scope list_scope.

Section Converse.

Context {F : Type} `{PyFloat F}.
Variable py_float : string -> option F.
Variable py_int : string -> option Z.
Variable py_isocalendar : Z -> Z -> Z -> option (Z * Z * Z).

Local Abbreviation parseRow := (parseRow py_float py_int py_isocalendar).
Local Abbreviation dataLine := (dataLine py_float py_int py_isocalendar).
Local Abbreviation readLine := (readLine py_float py_int py_isocalendar).
Local Abbreviation readLines := (readLines py_float py_int py_isocalendar).
Local Abbreviation main := (main py_float py_int py_isocalendar).
Local Abbreviation dataRows := (dataRows py_float py_int py_isocalendar).

(** The loop body goes on only after a well-formed line. *)
Lemma dataLine_ok_parsed (st st' : state F) (line : string) :
  dataLine st line = Ok st' -> exists r, parseRow line = Some r.
Proof.
  unfold Weekly.dataLine, WeeklyRows.parseRow, newWeek, sameWeek. intros E.
  repeat (cbn [bind or_raise negb] in E;
          match type of E with
          | context [or_raise ?x _] => destruct x eqn:?
          | context [if ?c then _ else _] => destruct c eqn:?
          | context [let '(_, _) := ?p in _] => destruct p eqn:?
          end);
    cbn [bind or_raise negb] in E; try discriminate;
    repeat match goal with
           | Hn : negb ?x = false |- context [?x] =>
               rewrite (proj1 (negb_false_iff _) Hn)
           end;
    try (eexists; reflexivity).
  all: exfalso;
  match goal with
  | C1 : (?y <? ?cy)%Z = false,
    C2 : ((?y =? ?cy) && (?w <? ?cw))%Z = false,
    C3 : ((?y =? ?cy) && (?w =? ?cw))%Z = false,
    C4 : (((?y =? ?cy) && (?w >? ?cw)) || (?y >? ?cy))%Z = false |- _ =>
      rewrite (later_week y w cy cw C1 C2 C3) in C4; discriminate
  end.
Qed.

Lemma readLines_ok_parsed (f : list string) :
  forall st st',
    (1 <= i st)%nat -> readLines st f = Ok st' ->
    exists rows,
      Forall2 (fun line r => parseRow line = Some r)
              (filter (fun line => negb (blank line)) f) rows.
Proof.
  induction f as [|line f IH]; intros st st' L E.
  - exists []. constructor.
  - cbn [Weekly.readLines] in E.
    destruct (readLine st line) as [st1| | |] eqn:R; try discriminate.
    cbn [bind] in E.
    pose proof (readLine_i _ _ _ _ _ _ R) as Li.
    destruct (IH st1 st' ltac:(lia) E) as [rows P].
    cbn [filter]. destruct (blank line) eqn:B; cbn [negb]; [exists rows; exact P|].
    rewrite (readLine_data _ _ _ st line L B) in R.
    destruct (dataLine_ok_parsed _ _ _ R) as [r Pr].
    exists (r :: rows). constructor; assumption.
Qed.

Lemma main_ok_dataRows (f : list string) (out : list (outputLine F)) :
  main f = Ok out -> exists rows, dataRows f rows.
Proof.
  unfold Weekly.main, WeeklyRows.dataRows, entries. intros E.
  destruct f as [|header f]; [exists []; constructor|].
  cbn [tl]. cbn [Weekly.readLines] in E.
  replace (readLine initialState header)
    with (Ok {| i := 1; currentWeek := @initialWeek F _;
                convertedLines := [] |}) in E by reflexivity.
  cbn [bind] in E.
  destruct (readLines _ f) as [st| | |] eqn:R; try discriminate.
  eapply readLines_ok_parsed; [|exact R]. cbn [i]. lia.
Qed.

Lemma chronological_dec (rows : list (dailyRow F)) :
  chronological rows \/ ~ chronological rows.
Proof.
  induction rows as [|r1 rows IH]; [left; exact I|].
  destruct IH as [C|N]; [|right; intros [_ C]; exact (N C)].
  destruct rows as [|r2 rows]; [left; split; exact I|].
  destruct (key_total (key r1) (key r2)) as [L|L].
  - left. split; assumption.
  - right. intros [[L'| E] _].
    + exact (key_lt_irrefl _ (key_lt_trans _ _ _ L L')).
    + rewrite E in L. exact (key_lt_irrefl _ L).
Qed.

End Converse.



Section LinesThatDoNotCount.

Context {F : Type} `{PyFloat F}.
Variable py_float : string -> option F.
Variable py_int : string -> option Z.
Variable py_isocalendar : Z -> Z -> Z -> option (Z * Z * Z).

Local Abbreviation dataLine := (dataLine py_float py_int py_isocalendar).
Local Abbreviation readLine := (readLine py_float py_int py_isocalendar).
Local Abbreviation readLines := (readLines py_float py_int py_isocalendar).
Local Abbreviation main := (main py_float py_int py_isocalendar).




End LinesThatDoNotCount.




Section DatesThatAreNotDates.

Context {F : Type} `{PyFloat F}.
Variable py_float : string -> option F.
Variable py_int : string -> option Z.
Variable py_isocalendar : Z -> Z -> Z -> option (Z * Z * Z).

Local Abbreviation parseRow := (parseRow py_float py_int py_isocalendar).
Local Abbreviation dataLine := (dataLine py_float py_int py_isocalendar).
Local Abbreviation readLine := (readLine py_float py_int py_isocalendar).
Local Abbreviation readLines := (readLines py_float py_int py_isocalendar).
Local Abbreviation main := (main py_float py_int py_isocalendar).
Local Abbreviation dateError := (WeeklyErrors.dateError py_int py_isocalendar).

(** The conversions of the date come before anything that depends on the
    current week. *)
Lemma dataLine_dateError (st : state F) (line : string) (e : exn) :
  malformed line = false -> blank line = false ->
  dateError (strip (nth 0 (split "," line) "")) = Some e ->
  dataLine st line = Uncaught e.
Proof.
  unfold malformed, wrongFieldCount, wrongDateLength, WeeklyErrors.dateError,
    Weekly.dataLine.
  intros M B. rewrite B in M. cbn [negb andb] in M.
  apply orb_false_iff in M. destruct M as [-> ->].
  destruct (py_int (slice 0 2 (strip (nth 0 (split "," line) "")))) as [month|];
    cbn [or_raise bind]; [|intros E; injection E as <-; reflexivity].
  destruct (py_int (slice 3 5 (strip (nth 0 (split "," line) "")))) as [day|];
    cbn [or_raise bind]; [|intros E; injection E as <-; reflexivity].
  destruct (py_int (slice 6 10 (strip (nth 0 (split "," line) "")))) as [year|];
    cbn [or_raise bind]; [|intros E; injection E as <-; reflexivity].
  destruct (py_isocalendar year month day);
    cbn [or_raise bind]; [discriminate|intros E; injection E as <-; reflexivity].
Qed.

End DatesThatAreNotDates.

(** X13.  A line whose date has ten characters but is not a date (the month,
    day or year text is not an integer, or the three are not a date of the
    calendar) ends the weekly script with the uncaught ValueError of int()
    or of datetime.date, not with a printed error: after well-formed rows in
    week order, whatever the current week and the rest of the line are, and
    before anything is written.  The characters between month, day and year
    are never looked at. *)
Theorem date_that_is_not_a_date_is_uncaught
  (F : Type) (H : PyFloat F) (py_float : string -> option F)
  (py_int : string -> option Z) (py_isocalendar : Z -> Z -> Z -> option (Z * Z * Z))
  (header bad : string) (good after : list string) (rows : list (dailyRow F))
  (e : exn) :
  Forall2 (fun line r => parseRow py_float py_int py_isocalendar line = Some r)
          (filter (fun line => negb (blank line)) good) rows ->
  chronological rows ->
  blank bad = false -> malformed bad = false ->
  WeeklyErrors.dateError py_int py_isocalendar (strip (nth 0 (split "," bad) ""))
  = Some e ->
  main py_float py_int py_isocalendar (header :: good ++ bad :: after) = Uncaught e.
Proof.
  intros P C B M D. unfold Weekly.main. cbn [Weekly.readLines].
  replace (readLine py_float py_int py_isocalendar initialState header)
    with (Ok {| i := 1; currentWeek := @initialWeek F _;
                convertedLines := @nil (convertedLine F) |}) by reflexivity.
  cbn [bind]. rewrite readLines_app.
  pose proof (readLines_rows _ _ _ good
                {| i := 1; currentWeek := @initialWeek F _; convertedLines := [] |}
                rows (le_n 1) P) as R.
  change (view _) with (@initialWeek F _, @nil (convertedLine F)) in R.
  assert (exists a, rowsRun (@initialWeek F _, []) rows = Ok a) as [a Ra].
  { destruct rows as [|r rows]; [eexists; reflexivity|].
    destruct (rowsRun_chronological_initial r rows C) as [w' [out' [Rr _]]].
    eexists. exact Rr. }
  rewrite Ra in R.
  destruct (readLines py_float py_int py_isocalendar _ good) as [st2| | |] eqn:G;
    try discriminate.
  cbn [bind Weekly.readLines].
  apply readLines_i in G. cbn [i] in G.
  rewrite (readLine_data _ _ _ st2 bad G B).
  rewrite (dataLine_dateError py_float py_int py_isocalendar st2 bad e M B D).
  reflexivity.
Qed.

Lemma date_that_is_not_a_date_is_uncaught_witness :
  Examples.run [ "Date,Open,High,Low,Close,Volume,OpenInt";
                 "01/06/2020,10,12,9,11,100,5";
                 "02/30/2020,12,13,10,11.5,200,6" ]
  = Uncaught (DateValueError 2020 2 30) /\
  Examples.run [ "Date,Open,High,Low,Close,Volume,OpenInt";
                 "01x06y2020,10,12,9,11,100,5" ]
  = Ok [ headerLine;
         weekLine {| lineDateStr := "01x06y2020"; lineOpen := 10%Q;
                     lineHigh := 12%Q; lineLow := 9%Q; lineClose := 11%Q;
                     lineVolume := 100; lineOpenInt := 5 |} ].
Proof.
  split; [|vm_compute; reflexivity].
  apply (date_that_is_not_a_date_is_uncaught Q exact
           Builtins.decimal_float Builtins.decimal_int Builtins.gregorian_isocalendar
           "Date,Open,High,Low,Close,Volume,OpenInt"
           "02/30/2020,12,13,10,11.5,200,6"
           ["01/06/2020,10,12,9,11,100,5"] []
           [{| rowLine := "01/06/2020,10,12,9,11,100,5";
               rowDateStr := "01/06/2020"; rowDate := (2020, 1, 6)%Z;
               rowIsoYear := 2020; rowIsoWeek := 2;
               rowOpen := 10%Q; rowHigh := 12%Q; rowLow := 9%Q; rowClose := 11%Q;
               rowVolume := 100; rowOpenInt := 5 |}]).
  - cbn [filter]. constructor; [vm_compute; reflexivity|constructor].
  - cbn. auto.
  - vm_compute. reflexivity.
  - vm_compute. reflexivity.
  - vm_compute. reflexivity.
Defined.

End WeeklyMore.

(** * The longitude engine from file to file *)

Module EphemerisScriptFacts.

Import PyStr Ephemeris EphemerisScript.

Local Open Scope list_scope.
Local Open Scope string_scope.

(** ** Strings *)

Lemma append_assoc (a b c : string) : (a ++ b) ++ c = a ++ (b ++ c).
Proof. induction a as [|x a IH]; cbn; [reflexivity|now rewrite IH]. Qed.

Lemma append_empty_r (a : string) : a ++ "" = a.
Proof. induction a as [|x a IH]; cbn; [reflexivity|now rewrite IH]. Qed.

Lemma dropLast_comma (a : string) : dropLast (a ++ ",") = a.
Proof.
  induction a as [|x a IH]; [reflexivity|].
  cbn [append]. cbn [dropLast]. rewrite IH.
  destruct a; reflexivity.
Qed.

Lemma split_not_nil (sep : ascii) (s : string) : split sep s <> [].
Proof.
  destruct s as [|c s]; cbn [split]; [discriminate|].
  destruct (Ascii.eqb c sep); [discriminate|].
  destruct (split sep s); discriminate.
Qed.

Local Abbreviation cells_with_commas :=
  (fold_left (fun line cell => line ++ cell ++ ",")).

Lemma cells_with_commas_app (cells : list string) :
  forall line, cells_with_commas cells line =
               line ++ String.concat "" (map (fun cell => cell ++ ",") cells).
Proof.
  induction cells as [|cell cells IH]; intros line.
  - cbn. now rewrite append_empty_r.
  - cbn [fold_left map]. rewrite IH.
    replace (String.concat "" ((cell ++ ",") :: map (fun c => c ++ ",") cells))
      with ((cell ++ ",") ++ String.concat "" (map (fun c => c ++ ",") cells)).
    + now rewrite !append_assoc.
    + cbn [String.concat]. destruct (map (fun c => c ++ ",") cells) eqn:E.
      * cbn. now rewrite append_empty_r.
      * reflexivity.
Qed.

(** The cells of a split line, each followed by a comma, spell the line
    followed by a comma. *)
Lemma cells_with_commas_split (s : string) :
  forall line, cells_with_commas (split "," s) line = line ++ s ++ ",".
Proof.
  induction s as [|c s IH]; intros line.
  - reflexivity.
  - cbn [split]. destruct (Ascii.eqb c ",") eqn:E.
    + apply Ascii.eqb_eq in E. subst c. cbn [fold_left].
      rewrite IH. cbn [append]. now rewrite !append_assoc.
    + specialize (IH (line ++ String c "")).
      destruct (split "," s) as [|field fields] eqn:S.
      * now destruct (split_not_nil "," s).
      * cbn [fold_left] in *.
        assert (A : forall x y : string, (x ++ String c "") ++ y = x ++ String c y)
          by (intros x y; rewrite append_assoc; reflexivity).
        rewrite !A in IH. cbn [append]. exact IH.
Qed.

Lemma concat_cons (a : string) (l : list string) :
  String.concat "" (a :: l) = a ++ String.concat "" l.
Proof.
  cbn [String.concat]. destruct l; [now rewrite append_empty_r|reflexivity].
Qed.

Lemma commas_after_to_before (cells : list string) :
  forall line,
    (line ++ ",") ++ String.concat "" (map (fun cell => cell ++ ",") cells) =
    extended line cells ++ ",".
Proof.
  unfold extended.
  induction cells as [|cell cells IH]; intros line.
  - cbn. now rewrite !append_empty_r.
  - cbn [map]. rewrite !concat_cons.
    specialize (IH (line ++ "," ++ cell)).
    rewrite !append_assoc in IH. rewrite !append_assoc.
    cbn [append] in IH |- *. exact IH.
Qed.

Lemma rowLine_split (line : string) (cells : list string) :
  rowLine (split "," line ++ cells) = extended line cells.
Proof.
  unfold rowLine. rewrite fold_left_app, cells_with_commas_split.
  rewrite cells_with_commas_app. cbn [append].
  rewrite commas_after_to_before. apply dropLast_comma.
Qed.

(** ** The read loop *)



(** ** One block, on any floats *)

Section Blocks.

Context {F : Type} `{PyFloat F}.
Variable py_float : string -> option F.
Variable py_str : F -> string.

Local Abbreviation forColumn := (forColumn py_float py_str).
Local Abbreviation forColumns := (forColumns py_float py_str).
Local Abbreviation block := (block py_float py_str).
Local Abbreviation blocks := (blocks py_float py_str).
Local Abbreviation script := (script py_float py_str).

Lemma forColumn_appends (fuel planetColumn : nat) (rows : list (list string)) :
  forall prev rows',
    forColumn fuel prev rows planetColumn = Ok rows' ->
    Forall2 (cellsAppended 1) rows rows'.
Proof.
  induction rows as [|row rows IH]; intros prev rows' R; cbn [Ephemeris.forColumn] in R.
  - injection R as <-. constructor.
  - destruct (cell_value py_float row planetColumn) as [x| | |]; try discriminate.
    cbn [bind] in R.
    destruct (adjust fuel prev x) as [y|]; try discriminate.
    cbn [bind or_diverge] in R.
    destruct (Ephemeris.forColumn py_float py_str fuel (Some y) rows planetColumn)
      as [rest| | |] eqn:E; try discriminate.
    cbn [bind] in R. injection R as <-.
    constructor; [|exact (IH _ _ E)].
    exists [py_str y]. split; reflexivity.
Qed.

Lemma forColumns_appends (fuel fasterPlanetColumn slowerPlanetColumn : nat)
  (rows : list (list string)) :
  forall prev rows',
    forColumns fuel prev rows fasterPlanetColumn slowerPlanetColumn = Ok rows' ->
    Forall2 (cellsAppended 1) rows rows'.
Proof.
  induction rows as [|row rows IH]; intros prev rows' R; cbn [Ephemeris.forColumns] in R.
  - injection R as <-. constructor.
  - destruct (cell_value py_float row fasterPlanetColumn) as [x| | |]; try discriminate.
    cbn [bind] in R.
    destruct (cell_value py_float row slowerPlanetColumn) as [x'| | |]; try discriminate.
    cbn [bind] in R.
    destruct (adjust fuel prev (fsub (fadd x (of_int 360)) x')) as [y|]; try discriminate.
    cbn [bind or_diverge] in R.
    destruct (Ephemeris.forColumns py_float py_str fuel (Some y) rows
                fasterPlanetColumn slowerPlanetColumn) as [rest| | |] eqn:E;
      try discriminate.
    cbn [bind] in R. injection R as <-.
    constructor; [|exact (IH _ _ E)].
    exists [py_str y]. split; reflexivity.
Qed.

Lemma block_appends (fuel : nat) (c : calculation)
  (header header' : string) (rows rows' : list (list string)) :
  block fuel (header, rows) c = Python (Ok (header', rows')) ->
  header' = header ++ "," ++ columnName c /\ Forall2 (cellsAppended 1) rows rows'.
Proof.
  unfold EphemerisScript.block. cbn [fst snd].
  destruct c as [name d planet|name fd fp sd sp]; cbn [columnName].
  - destruct (getitem (items d) planet) as [planetColumn|]; [|discriminate].
    unfold doCalculationsForColumn.
    destruct (Ephemeris.forColumn py_float py_str fuel None rows planetColumn)
      as [out| | |] eqn:E; cbn [bind]; try discriminate.
    intros R. injection R as <- <-. split; [reflexivity|].
    exact (forColumn_appends _ _ _ _ _ E).
  - destruct (getitem (items fd) fp) as [fasterPlanetColumn|]; [|discriminate].
    destruct (getitem (items sd) sp) as [slowerPlanetColumn|]; [|discriminate].
    unfold doCalculationsForColumns.
    destruct (Ephemeris.forColumns py_float py_str fuel None rows
                fasterPlanetColumn slowerPlanetColumn) as [out| | |] eqn:E;
      cbn [bind]; try discriminate.
    intros R. injection R as <- <-. split; [reflexivity|].
    exact (forColumns_appends _ _ _ _ _ _ E).
Qed.


Lemma extended_cons (line cell : string) (cells : list string) :
  extended (line ++ "," ++ cell) cells = extended line (cell :: cells).
Proof.
  unfold extended. cbn [map]. rewrite concat_cons, !append_assoc. reflexivity.
Qed.


End Blocks.

(** ** The blocks on exact values *)

Section ExactBlocks.

Variable py_float : string -> option Q.
Variable py_str : Q -> string.

Local Abbreviation cell_value := (cell_value py_float).
Local Abbreviation forColumn := (forColumn py_float py_str).
Local Abbreviation forColumns := (forColumns py_float py_str).
Local Abbreviation block := (block py_float py_str).
Local Abbreviation blocks := (blocks py_float py_str).






Lemma getitem_In (d : list (string * nat)) (key : string) (column : nat) :
  getitem d key = Some column -> In column (map snd d).
Proof.
  induction d as [|[k v] d IH]; cbn [getitem map snd]; [discriminate|].
  destruct (String.eqb k key).
  - intros E. injection E as ->. now left.
  - intros E. right. exact (IH E).
Qed.








End ExactBlocks.



(** X6.  Writing a row gives back the line it was read from: the cells of a
    line split at the commas, followed by appended cells, are written as the
    line followed by a comma and a cell for each appended cell. *)
Theorem written_row_is_the_line_read (line : string) (cells : list string) :
  rowLine (split "," line) = line /\
  rowLine (split "," line ++ cells) = extended line cells.
Proof.
  split; [|apply rowLine_split].
  rewrite <- (app_nil_r (split "," line)), rowLine_split.
  unfold extended. cbn. apply append_empty_r.
Qed.

Lemma calculations_resolve : forallb resolves calculations = true.
Proof. vm_compute. reflexivity. Qed.




(** ** How the script can end *)

Section Endings.

Context {F : Type} `{PyFloat F}.
Variable py_float : string -> option F.
Variable py_str : F -> string.

Lemma cell_value_foreseen (row : list string) (column : nat) :
  match cell_value py_float row column with
  | Ok _ => True
  | Uncaught e => raisedByFloat py_float e
  | _ => False
  end.
Proof.
  unfold cell_value, raisedByFloat.
  destruct (nth_error row column) as [cell|]; cbn [bind or_raise]; [|now left].
  destruct (py_float cell) eqn:E; cbn [or_raise]; [exact I|].
  right. now exists cell.
Qed.

Lemma forColumn_foreseen (fuel column : nat) (rows : list (list string)) :
  forall prev,
    match forColumn py_float py_str fuel prev rows column with
    | SysExit _ => False
    | Uncaught e => raisedByFloat py_float e
    | _ => True
    end.
Proof.
  induction rows as [|row rows IH]; intros prev; cbn [forColumn]; [exact I|].
  pose proof (cell_value_foreseen row column) as C.
  destruct (cell_value py_float row column) as [x| |e|]; cbn [bind];
    try exact C; try exact I.
  destruct (adjust fuel prev x) as [y|]; cbn [bind or_diverge]; [|exact I].
  specialize (IH (Some y)).
  destruct (forColumn py_float py_str fuel (Some y) rows column); cbn [bind];
    try exact IH; exact I.
Qed.

Lemma forColumns_foreseen (fuel faster slower : nat) (rows : list (list string)) :
  forall prev,
    match forColumns py_float py_str fuel prev rows faster slower with
    | SysExit _ => False
    | Uncaught e => raisedByFloat py_float e
    | _ => True
    end.
Proof.
  induction rows as [|row rows IH]; intros prev; cbn [forColumns]; [exact I|].
  pose proof (cell_value_foreseen row faster) as C.
  destruct (cell_value py_float row faster) as [x| |e|]; cbn [bind];
    try exact C; try exact I.
  pose proof (cell_value_foreseen row slower) as C'.
  destruct (cell_value py_float row slower) as [x'| |e|]; cbn [bind];
    try exact C'; try exact I.
  destruct (adjust fuel prev (fsub (fadd x (of_int 360)) x')) as [y|];
    cbn [bind or_diverge]; [|exact I].
  specialize (IH (Some y)).
  destruct (forColumns py_float py_str fuel (Some y) rows faster slower); cbn [bind];
    try exact IH; exact I.
Qed.

Lemma block_foreseen (fuel : nat) (st : string * list (list string))
  (c : calculation) :
  resolves c = true -> foreseen py_float (block py_float py_str fuel st c).
Proof.
  unfold resolves, block, foreseen.
  destruct c as [name d planet|name fd fp sd sp].
  - destruct (getitem (items d) planet) as [column|]; [intros _|discriminate].
    unfold doCalculationsForColumn.
    pose proof (forColumn_foreseen fuel column (snd st) None) as E.
    destruct (forColumn py_float py_str fuel None (snd st) column); cbn [bind];
      try exact E; exact I.
  - destruct (getitem (items fd) fp) as [faster|]; [|discriminate].
    destruct (getitem (items sd) sp) as [slower|]; [intros _|discriminate].
    unfold doCalculationsForColumns.
    pose proof (forColumns_foreseen fuel faster slower (snd st) None) as E.
    destruct (forColumns py_float py_str fuel None (snd st) faster slower);
      cbn [bind]; try exact E; exact I.
Qed.

Lemma blocks_foreseen (fuel : nat) (cs : list calculation) :
  forallb resolves cs = true ->
  forall st, foreseen py_float (blocks py_float py_str fuel st cs).
Proof.
  induction cs as [|c cs IH]; intros K st; cbn [blocks]; [exact I|].
  cbn [forallb] in K. apply andb_true_iff in K. destruct K as [Kc Ks].
  pose proof (block_foreseen fuel st c Kc) as B.
  destruct (block py_float py_str fuel st c) as [key|[st'| | |]];
    try exact B. exact (IH Ks st').
Qed.

End Endings.

(** X9.  With any float arithmetic, on any input and for any number of loop
    iterations, the longitude script ends in one of these ways only: it
    writes its output, a loop does not end, or reading a cell raises
    IndexError or the ValueError of float().  No dictionary lookup raises
    KeyError: every key of every calculation is in its dictionary. *)
Theorem script_ends_as_foreseen
  (F : Type) (H : PyFloat F) (py_float : string -> option F) (py_str : F -> string)
  (fuel : nat) (f : list string) :
  (exists out, script py_float py_str fuel f = Python (Ok out)) \/
  script py_float py_str fuel f = Python OutOfFuel \/
  script py_float py_str fuel f = Python (Uncaught IndexError) \/
  (exists cell, py_float cell = None /\
                script py_float py_str fuel f = Python (Uncaught (FloatValueError cell))).
Proof.
  unfold script.
  pose proof (blocks_foreseen py_float py_str fuel calculations calculations_resolve
                (headerLine (readLines f), listOfDataValues (readLines f))) as E.
  destruct (blocks py_float py_str fuel
              (headerLine (readLines f), listOfDataValues (readLines f)) calculations)
    as [key|[st| |e|]]; cbn [foreseen bind] in *.
  - destruct E.
  - left. now eexists.
  - destruct E.
  - destruct E as [->|[cell [N ->]]]; [now right; right; left|].
    right; right; right. now exists cell.
  - now right; left.
Qed.


(** ** The width of the rows *)

Section Widths.

Context {F : Type} `{PyFloat F}.
Variable py_float : string -> option F.
Variable py_str : F -> string.

Local Abbreviation cell_value := (cell_value py_float).
Local Abbreviation forColumn := (forColumn py_float py_str).
Local Abbreviation forColumns := (forColumns py_float py_str).
Local Abbreviation block := (block py_float py_str).
Local Abbreviation blocks := (blocks py_float py_str).







End Widths.



Section ShortRows.

Variable py_float : string -> option Q.
Variable py_str : Q -> string.

Hypothesis float_of_str : forall x, exists y, py_float (py_str x) = Some y.




End ShortRows.


(** ** The calculations are independent on rows of 66 cells *)

Section Frames.

Context {F : Type} `{PyFloat F}.
Variable py_float : string -> option F.
Variable py_str : F -> string.

Local Abbreviation cell_value := (cell_value py_float).
Local Abbreviation forColumn := (forColumn py_float py_str).
Local Abbreviation forColumns := (forColumns py_float py_str).
Local Abbreviation block := (block py_float py_str).
Local Abbreviation blocks := (blocks py_float py_str).
Local Abbreviation cellsFor := (cellsFor py_float py_str).
Local Abbreviation columnsFor := (columnsFor py_float py_str).

(** The rows [rows1] are the rows [rows], of 66 cells or more, each
    followed by more cells. *)
Local Abbreviation extends rows rows1 :=
  (Forall2 (fun row row1 : list string =>
              (66 <= length row)%nat /\ exists ext, row1 = (row ++ ext)%list)
           rows rows1).

Lemma dictionaryColumns_lt_66 (column : nat) :
  In column dictionaryColumns -> (column < 66)%nat.
Proof.
  assert (A : forallb (fun c => c <? 66)%nat dictionaryColumns = true) by reflexivity.
  rewrite forallb_forall in A. intros I. apply Nat.ltb_lt. exact (A column I).
Qed.

Lemma cell_value_prefix (row ext : list string) (column : nat) :
  (column < length row)%nat ->
  cell_value (row ++ ext) column = cell_value row column.
Proof.
  intros L. unfold Ephemeris.cell_value. now rewrite nth_error_app1.
Qed.

Lemma forColumn_frame (fuel column : nat) (rows rows1 : list (list string)) :
  (column < 66)%nat -> extends rows rows1 ->
  forall prev,
    forColumn fuel prev rows1 column =
    (rows' <- forColumn fuel prev rows column ;;
     Ok (appendColumn rows1 (cellsOf rows'))).
Proof.
  intros C E.
  induction E as [|row row1 rows rows1 [L [ext ->]] E IH]; intros prev;
    [reflexivity|].
  cbn [Ephemeris.forColumn]. rewrite cell_value_prefix by lia.
  destruct (cell_value row column) as [x| | |]; cbn [bind]; try reflexivity.
  destruct (adjust fuel prev x) as [y|]; cbn [bind or_diverge]; [|reflexivity].
  rewrite IH.
  destruct (Ephemeris.forColumn py_float py_str fuel (Some y) rows column)
    as [rest| | |]; cbn [bind]; try reflexivity.
  unfold appendColumn, cellsOf. cbn [map combine fst snd].
  now rewrite last_last.
Qed.

Lemma forColumns_frame (fuel faster slower : nat) (rows rows1 : list (list string)) :
  (faster < 66)%nat -> (slower < 66)%nat -> extends rows rows1 ->
  forall prev,
    forColumns fuel prev rows1 faster slower =
    (rows' <- forColumns fuel prev rows faster slower ;;
     Ok (appendColumn rows1 (cellsOf rows'))).
Proof.
  intros C C' E.
  induction E as [|row row1 rows rows1 [L [ext ->]] E IH]; intros prev;
    [reflexivity|].
  cbn [Ephemeris.forColumns]. rewrite !cell_value_prefix by lia.
  destruct (cell_value row faster) as [x| | |]; cbn [bind]; try reflexivity.
  destruct (cell_value row slower) as [x'| | |]; cbn [bind]; try reflexivity.
  destruct (adjust fuel prev (fsub (fadd x (of_int 360)) x')) as [y|];
    cbn [bind or_diverge]; [|reflexivity].
  rewrite IH.
  destruct (Ephemeris.forColumns py_float py_str fuel (Some y) rows faster slower)
    as [rest| | |]; cbn [bind]; try reflexivity.
  unfold appendColumn, cellsOf. cbn [map combine fst snd].
  now rewrite last_last.
Qed.

Lemma getitem_lt_66 (d : dictionary) (key : string) (column : nat) :
  getitem (items d) key = Some column -> (column < 66)%nat.
Proof.
  intros G. apply dictionaryColumns_lt_66. apply getitem_In in G.
  unfold dictionaryColumns. apply in_or_app. destruct d; [now left|now right].
Qed.

Lemma block_frame (fuel : nat) (c : calculation) (header1 : string)
  (rows rows1 : list (list string)) :
  extends rows rows1 ->
  block fuel (header1, rows1) c =
  match cellsFor fuel rows c with
  | KeyError key => KeyError key
  | Python o =>
      Python (cells <- o ;;
              Ok (header1 ++ "," ++ columnName c, appendColumn rows1 cells))
  end.
Proof.
  intros E. unfold EphemerisScript.cellsFor, EphemerisScript.block. cbn [fst snd].
  destruct c as [name d planet|name fd fp sd sp]; cbn [columnName].
  - destruct (getitem (items d) planet) as [column|] eqn:G; [|reflexivity].
    unfold doCalculationsForColumn.
    rewrite (forColumn_frame fuel column rows rows1 (getitem_lt_66 _ _ _ G) E).
    destruct (Ephemeris.forColumn py_float py_str fuel None rows column);
      reflexivity.
  - destruct (getitem (items fd) fp) as [faster|] eqn:G; [|reflexivity].
    destruct (getitem (items sd) sp) as [slower|] eqn:G'; [|reflexivity].
    unfold doCalculationsForColumns.
    rewrite (forColumns_frame fuel faster slower rows rows1
               (getitem_lt_66 _ _ _ G) (getitem_lt_66 _ _ _ G') E).
    destruct (Ephemeris.forColumns py_float py_str fuel None rows faster slower);
      reflexivity.
Qed.

Lemma cellsFor_length (fuel : nat) (rows : list (list string)) (c : calculation)
  (cells : list string) :
  cellsFor fuel rows c = Python (Ok cells) -> length cells = length rows.
Proof.
  unfold EphemerisScript.cellsFor.
  destruct (EphemerisScript.block py_float py_str fuel ("", rows) c)
    as [key|[[h rows']| | |]] eqn:B; try discriminate.
  cbn [bind snd]. intros E. injection E as <-.
  apply (block_appends py_float py_str) in B. destruct B as [_ A].
  unfold cellsOf. rewrite length_map. symmetry. exact (Forall2_length A).
Qed.

Lemma extends_appendColumn (rows rows1 : list (list string)) :
  extends rows rows1 ->
  forall cells, length cells = length rows -> extends rows (appendColumn rows1 cells).
Proof.
  induction 1 as [|row row1 rows rows1 [L [ext ->]] E IH]; intros cells N.
  - destruct cells; [constructor|discriminate].
  - destruct cells as [|cell cells]; [discriminate|].
    unfold appendColumn. cbn [combine map fst snd].
    constructor.
    + split; [exact L|]. exists (ext ++ [cell])%list. now rewrite app_assoc.
    + apply IH. cbn [length] in N. lia.
Qed.

Lemma blocks_separately (fuel : nat) (rows : list (list string))
  (cs : list calculation) :
  forall header1 rows1,
    extends rows rows1 ->
    blocks fuel (header1, rows1) cs =
    match columnsFor fuel rows cs with
    | KeyError key => KeyError key
    | Python o =>
        Python (columns <- o ;;
                Ok (extended header1 (map columnName cs),
                    fold_left appendColumn columns rows1))
    end.
Proof.
  induction cs as [|c cs IH]; intros header1 rows1 E;
    cbn [EphemerisScript.blocks EphemerisScript.columnsFor].
  - cbn [bind map fold_left]. unfold extended. cbn. now rewrite append_empty_r.
  - rewrite (block_frame fuel c header1 rows rows1 E).
    destruct (EphemerisScript.cellsFor py_float py_str fuel rows c)
      as [key|[cells| | |]] eqn:C; cbn [bind]; try reflexivity.
    rewrite (IH _ _ (extends_appendColumn rows rows1 E cells
                       (cellsFor_length fuel rows c cells C))).
    destruct (EphemerisScript.columnsFor py_float py_str fuel rows cs)
      as [key|[columns| | |]]; cbn [bind map fold_left]; try reflexivity.
    now rewrite extended_cons.
Qed.

End Frames.

(** X16.  On rows of 66 cells or more the calculations are independent of
    one another, with any float arithmetic and any loop bound: the header
    and the rows after the blocks are the header with the column names and
    the rows with, for each block in order, the column of cells that the
    block appends when it is run alone on the rows of the input; and the
    run stops at the first block that does not return alone, in the way
    that block does. *)
Theorem calculations_are_independent
  (F : Type) (H : PyFloat F) (py_float : string -> option F) (py_str : F -> string)
  (fuel : nat) (header : string) (rows : list (list string))
  (cs : list calculation) :
  Forall (fun row => (66 <= length row)%nat) rows ->
  blocks py_float py_str fuel (header, rows) cs =
  separately py_float py_str fuel (header, rows) cs.
Proof.
  intros W. unfold separately. cbn [fst snd].
  apply blocks_separately.
  induction W as [|row rows L W IH]; constructor; [|exact IH].
  split; [exact L|]. exists []. now rewrite app_nil_r.
Qed.

(** ** The theorems at concrete files *)






Lemma calculations_are_independent_witness :
  Forall (fun row => (66 <= length row)%nat)
         (map (split ",") (dataLines EphemerisExamples.two_days)) /\
  blocks Builtins.decimal_float Printers.whole_str 1
    ("", map (split ",") (dataLines EphemerisExamples.two_days)) calculations =
  separately Builtins.decimal_float Printers.whole_str 1
    ("", map (split ",") (dataLines EphemerisExamples.two_days)) calculations /\
  (exists st,
      blocks Builtins.decimal_float Printers.whole_str 1
        ("", map (split ",") (dataLines (EphemerisExamples.cellsWide 46)))
        calculations = Python (Ok st)) /\
  separately Builtins.decimal_float Printers.whole_str 1
    ("", map (split ",") (dataLines (EphemerisExamples.cellsWide 46))) calculations
  = Python (Uncaught IndexError).
Proof.
  assert (W : Forall (fun row => (66 <= length row)%nat)
                (map (split ",") (dataLines EphemerisExamples.two_days))).
  { let rows := eval vm_compute in
        (map (split ",") (dataLines EphemerisExamples.two_days)) in
    change (Forall (fun row => (66 <= length row)%nat) rows).
    repeat (apply Forall_cons; [cbn [length]; lia|]). apply Forall_nil. }
  split; [exact W|]. split.
  - exact (calculations_are_independent Q exact Builtins.decimal_float
             Printers.whole_str 1 "" _ calculations W).
  - split; [eexists|]; vm_compute; reflexivity.
Defined.

End EphemerisScriptFacts.

(** * The weekly aggregator: the output file is a file of its input format *)

Module WeeklyOutputFacts.

Import PyStr Weekly WeeklyRows WeeklyFacts WeeklyOutput.

Local Open Scope list_scope.
Local Open Scope string_scope.

(** ** Commas and white space *)

Lemma noComma_app (a b : string) : noComma (a ++ b) = noComma a && noComma b.
Proof.
  induction a as [|c a IH]; cbn [append noComma]; [reflexivity|].
  now rewrite IH, andb_assoc.
Qed.

Lemma split_noComma (a : string) : noComma a = true -> split "," a = [a].
Proof.
  induction a as [|c a IH]; cbn [noComma split]; [reflexivity|].
  intros N. apply andb_true_iff in N. destruct N as [C N].
  apply negb_true_iff in C. now rewrite C, (IH N).
Qed.

Lemma split_field (a b : string) :
  noComma a = true -> split "," (a ++ "," ++ b) = a :: split "," b.
Proof.
  induction a as [|c a IH]; cbn [noComma append]; intros N.
  - reflexivity.
  - apply andb_true_iff in N. destruct N as [C N]. apply negb_true_iff in C.
    cbn [split]. rewrite C. cbn [append] in IH. now rewrite (IH N).
Qed.

Lemma split_fields_noComma (s : string) :
  Forall (fun field => noComma field = true) (split "," s).
Proof.
  induction s as [|c s IH]; cbn [split].
  - now constructor.
  - destruct (Ascii.eqb c ",") eqn:C; [now constructor|].
    destruct (split "," s) as [|field fields].
    + constructor; [|constructor]. cbn [noComma]. now rewrite C.
    + inversion IH as [|? ? N Ns]; subst. constructor; [|exact Ns].
      cbn [noComma]. now rewrite C.
Qed.

Lemma lstrip_noComma (s : string) : noComma s = true -> noComma (lstrip s) = true.
Proof.
  induction s as [|c s IH]; cbn [lstrip]; intros N; [exact N|].
  destruct (isspace c); [|exact N].
  cbn [noComma] in N. apply andb_true_iff in N. now apply IH.
Qed.

Lemma rstrip_cons (c : ascii) (rest : string) :
  rstrip (String c rest) =
  match rstrip rest with
  | EmptyString => if isspace c then EmptyString else String c EmptyString
  | rest' => String c rest'
  end.
Proof. reflexivity. Qed.

Lemma rstrip_noComma (s : string) : noComma s = true -> noComma (rstrip s) = true.
Proof.
  induction s as [|c s IH]; intros N; [exact N|].
  cbn [noComma] in N. apply andb_true_iff in N. destruct N as [C N].
  rewrite rstrip_cons. specialize (IH N).
  destruct (rstrip s) as [|c' r].
  - destruct (isspace c); [reflexivity|]. cbn [noComma]. now rewrite C.
  - cbn [noComma] in *. now rewrite C, IH.
Qed.

Lemma strip_noComma (s : string) : noComma s = true -> noComma (strip s) = true.
Proof. intros N. apply rstrip_noComma, lstrip_noComma, N. Qed.

Lemma lstrip_whiteSpace (s : string) : whiteSpace s = true -> lstrip s = "".
Proof.
  induction s as [|c s IH]; cbn [whiteSpace lstrip]; [reflexivity|].
  intros W. apply andb_true_iff in W. destruct W as [C W]. now rewrite C, IH.
Qed.

Lemma rstrip_whiteSpace (s : string) : whiteSpace s = true -> rstrip s = "".
Proof.
  induction s as [|c s IH]; cbn [whiteSpace]; [reflexivity|].
  intros W. apply andb_true_iff in W. destruct W as [C W].
  now rewrite rstrip_cons, (IH W), C.
Qed.

Lemma rstrip_app_whiteSpace (s ending : string) :
  whiteSpace ending = true -> rstrip (s ++ ending) = rstrip s.
Proof.
  intros W. induction s as [|c s IH]; cbn [append].
  - now apply rstrip_whiteSpace.
  - now rewrite !rstrip_cons, IH.
Qed.

Lemma lstrip_app (s ending : string) :
  lstrip (s ++ ending) = if whiteSpace s then lstrip ending else lstrip s ++ ending.
Proof.
  induction s as [|c s IH]; cbn [append lstrip whiteSpace]; [reflexivity|].
  destruct (isspace c); cbn [andb]; [exact IH|reflexivity].
Qed.

Lemma strip_app_whiteSpace (s ending : string) :
  whiteSpace ending = true -> strip (s ++ ending) = strip s.
Proof.
  intros W. unfold strip. rewrite lstrip_app.
  destruct (whiteSpace s) eqn:Ws.
  - now rewrite (lstrip_whiteSpace ending W), (lstrip_whiteSpace s Ws).
  - now apply rstrip_app_whiteSpace.
Qed.

(** A text that does not start with white space. *)
Local Abbreviation startsTight t :=
  (match t with EmptyString => True | String c _ => isspace c = false end).

Lemma lstrip_startsTight (s : string) : startsTight (lstrip s).
Proof.
  induction s as [|c s IH]; cbn [lstrip]; [exact I|].
  destruct (isspace c) eqn:C; [exact IH|exact C].
Qed.

Lemma rstrip_startsTight (t : string) : startsTight t -> startsTight (rstrip t).
Proof.
  destruct t as [|c t]; [intros _; exact I|]. intros C. rewrite rstrip_cons.
  destruct (rstrip t); [rewrite C|]; exact C.
Qed.

Lemma lstrip_tight (t : string) : startsTight t -> lstrip t = t.
Proof. destruct t as [|c t]; [reflexivity|]. cbn [lstrip]. now intros ->. Qed.

Lemma rstrip_rstrip (s : string) : rstrip (rstrip s) = rstrip s.
Proof.
  induction s as [|c s IH]; [reflexivity|]. rewrite rstrip_cons.
  destruct (rstrip s) as [|c' r] eqn:E.
  - destruct (isspace c) eqn:C; [reflexivity|]. rewrite rstrip_cons.
    cbn [rstrip]. now rewrite C.
  - rewrite rstrip_cons, IH. reflexivity.
Qed.

Lemma strip_strip (s : string) : strip (strip s) = strip s.
Proof.
  unfold strip.
  rewrite (lstrip_tight _ (rstrip_startsTight _ (lstrip_startsTight s))).
  apply rstrip_rstrip.
Qed.

Lemma isspace_not_comma (c : ascii) : isspace c = true -> Ascii.eqb c "," = false.
Proof.
  intros S. destruct (Ascii.eqb_spec c ","); [|reflexivity].
  subst c. discriminate.
Qed.

Lemma whiteSpace_noComma (s : string) : whiteSpace s = true -> noComma s = true.
Proof.
  induction s as [|c s IH]; cbn [whiteSpace noComma]; [reflexivity|].
  intros W. apply andb_true_iff in W. destruct W as [C W].
  now rewrite (isspace_not_comma c C), (IH W).
Qed.

Lemma blank_whiteSpace (line : string) : blank line = true -> whiteSpace line = true.
Proof.
  unfold blank, strip. intros B. apply String.eqb_eq in B.
  assert (L : lstrip line = "").
  { pose proof (lstrip_startsTight line) as T.
    destruct (lstrip line) as [|c t]; [reflexivity|].
    rewrite rstrip_cons in B. destruct (rstrip t); [rewrite T in B|]; discriminate. }
  clear B. induction line as [|c s IH]; [reflexivity|].
  cbn [lstrip whiteSpace] in *. destruct (isspace c); [now apply IH|discriminate].
Qed.

(** ** Reading a written line *)

Section Reread.

Context {F : Type} `{PyFloat F}.
Variable py_float : string -> option F.
Variable py_int : string -> option Z.
Variable py_isocalendar : Z -> Z -> Z -> option (Z * Z * Z).
Variable str_float : F -> string.
Variable str_int : Z -> string.

Local Abbreviation parseRow := (parseRow py_float py_int py_isocalendar).
Local Abbreviation dataRows := (dataRows py_float py_int py_isocalendar).
Local Abbreviation main := (main py_float py_int py_isocalendar).
Local Abbreviation format := (format str_float str_int).
Local Abbreviation rowRead := (rowRead str_float str_int).
Local Abbreviation readBack := (readBack str_float str_int py_float py_int).

(** The date text of a row was stripped, has no comma and ten characters,
    and stands for a date of the week of the row. *)
Local Abbreviation dated r :=
  (exists s month day year weekday,
      rowDateStr r = strip s /\
      noComma (rowDateStr r) = true /\
      Nat.eqb (String.length (rowDateStr r)) 10 = true /\
      py_int (slice 0 2 (rowDateStr r)) = Some month /\
      py_int (slice 3 5 (rowDateStr r)) = Some day /\
      py_int (slice 6 10 (rowDateStr r)) = Some year /\
      py_isocalendar year month day = Some (rowIsoYear r, rowIsoWeek r, weekday) /\
      rowDate r = (year, month, day)).

Lemma parseRow_not_blank (line : string) (r : dailyRow F) :
  parseRow line = Some r -> blank line = false.
Proof.
  intros P. destruct (blank line) eqn:B; [|reflexivity].
  apply blank_whiteSpace, whiteSpace_noComma, split_noComma in B.
  unfold WeeklyRows.parseRow in P. rewrite B in P. discriminate.
Qed.

Lemma parseRow_dated (line : string) (r : dailyRow F) :
  parseRow line = Some r -> dated r.
Proof.
  unfold WeeklyRows.parseRow.
  destruct (length (split "," line) =? 7)%nat; [|discriminate].
  destruct (String.length (strip (nth 0 (split "," line) "")) =? 10)%nat eqn:L;
    [|discriminate].
  destruct (py_int (slice 0 2 (strip (nth 0 (split "," line) "")))) as [month|] eqn:M;
    [|discriminate].
  destruct (py_int (slice 3 5 (strip (nth 0 (split "," line) "")))) as [day|] eqn:D;
    [|discriminate].
  destruct (py_int (slice 6 10 (strip (nth 0 (split "," line) "")))) as [year|] eqn:Y;
    [|discriminate].
  destruct (py_isocalendar year month day) as [[[isoYear isoWeek] weekday]|] eqn:I;
    [|discriminate].
  destruct (py_float (strip (nth 1 (split "," line) ""))); [|discriminate].
  destruct (py_float (strip (nth 2 (split "," line) ""))); [|discriminate].
  destruct (py_float (strip (nth 3 (split "," line) ""))); [|discriminate].
  destruct (py_float (strip (nth 4 (split "," line) ""))); [|discriminate].
  destruct (py_int (strip (nth 5 (split "," line) ""))); [|discriminate].
  destruct (py_int (strip (nth 6 (split "," line) ""))); [|discriminate].
  intros E. injection E as <-.
  cbn [rowDateStr rowIsoYear rowIsoWeek rowDate].
  exists (nth 0 (split "," line) ""), month, day, year, weekday.
  repeat split; try assumption.
  apply strip_noComma.
  pose proof (split_fields_noComma line) as N.
  destruct (split "," line) as [|field fields]; [reflexivity|].
  now inversion N.
Qed.

Lemma split_format (ending : string) (l : convertedLine F) :
  noComma (lineDateStr l) = true ->
  readBack (weekLine l) ->
  whiteSpace ending = true ->
  split "," (format l ++ ending) =
  [ lineDateStr l; str_float (lineOpen l); str_float (lineHigh l);
    str_float (lineLow l); str_float (lineClose l); str_int (lineVolume l);
    str_int (lineOpenInt l) ++ ending ].
Proof.
  intros Nd [Rf Ri] W. unfold WeeklyOutput.format.
  inversion Rf as [|? ? [No _] Rf1]; subst.
  inversion Rf1 as [|? ? [Nh _] Rf2]; subst.
  inversion Rf2 as [|? ? [Nl _] Rf3]; subst.
  inversion Rf3 as [|? ? [Nc _] _]; subst.
  inversion Ri as [|? ? [Nv _] Ri1]; subst.
  inversion Ri1 as [|? ? [Ni _] _]; subst.
  rewrite !EphemerisScriptFacts.append_assoc.
  rewrite !split_field by assumption.
  rewrite split_noComma; [reflexivity|].
  rewrite noComma_app, Ni. now apply whiteSpace_noComma.
Qed.

Lemma parseRow_format (ending : string) (first : dailyRow F) (l : convertedLine F) :
  whiteSpace ending = true ->
  dated first ->
  lineDateStr l = rowDateStr first ->
  readBack (weekLine l) ->
  parseRow (format l ++ ending) = Some (rowRead ending first l).
Proof.
  intros W [s [month [day [year [weekday [S [N [L [M [D [Y [I Dt]]]]]]]]]]]] E R.
  unfold WeeklyRows.parseRow.
  rewrite (split_format ending l) by (try rewrite E; assumption).
  cbn [length Nat.eqb nth].
  assert (T : strip (lineDateStr l) = lineDateStr l)
    by (rewrite E, S; apply strip_strip).
  rewrite T, E, L, M, D, Y, I.
  destruct R as [Rf Ri].
  inversion Rf as [|? ? [_ Po] Rf1]; subst.
  inversion Rf1 as [|? ? [_ Ph] Rf2]; subst.
  inversion Rf2 as [|? ? [_ Pl] Rf3]; subst.
  inversion Rf3 as [|? ? [_ Pc] _]; subst.
  inversion Ri as [|? ? [_ Pv] Ri1]; subst.
  inversion Ri1 as [|? ? [_ Pi] _]; subst.
  rewrite (strip_app_whiteSpace _ ending W).
  rewrite Po, Ph, Pl, Pc, Pv, Pi.
  unfold WeeklyOutput.rowRead. now rewrite E, Dt.
Qed.

Local Abbreviation weekRead ending :=
  (fun g : dailyRow F * list (dailyRow F) => (rowRead ending (fst g) (weekOf g), @nil (dailyRow F))).

Lemma groups_reread (ending : string) (gs : list (dailyRow F * list (dailyRow F))) :
  whiteSpace ending = true ->
  Forall (fun g => dated (fst g)) gs ->
  Forall (fun g => readBack (weekLine (weekOf g))) gs ->
  Forall2 (fun line r => parseRow line = Some r)
          (map (fun g => format (weekOf g) ++ ending) gs)
          (map (fun g => rowRead ending (fst g) (weekOf g)) gs).
Proof.
  intros W. induction gs as [|g gs IH]; intros D R; cbn [map]; [constructor|].
  inversion D as [|? ? Dg Ds]; inversion R as [|? ? Rg Rs]; subst.
  constructor; [|exact (IH Ds Rs)].
  apply parseRow_format; try assumption.
  exact (proj1 (weekOf_summarizes g)).
Qed.

Lemma laterWeeks_reread (ending : string) (gs : list (dailyRow F * list (dailyRow F))) :
  forall k, laterWeeks k gs -> laterWeeks k (map (weekRead ending) gs).
Proof.
  induction gs as [|g gs IH]; intros k L; cbn [map laterWeeks] in *; [exact I|].
  destruct L as [Lk [_ Ls]]. split; [exact Lk|]. split; [constructor|].
  exact (IH _ Ls).
Qed.

Lemma wellGrouped_reread (ending : string) (gs : list (dailyRow F * list (dailyRow F))) :
  wellGrouped gs -> wellGrouped (map (weekRead ending) gs).
Proof.
  destruct gs as [|g gs]; cbn [map wellGrouped]; [exact id|].
  intros [_ L]. split; [constructor|]. exact (laterWeeks_reread ending gs _ L).
Qed.

Lemma weekOf_reread (ending : string) (g : dailyRow F * list (dailyRow F)) :
  weekOf (weekRead ending g) = weekOf g.
Proof.
  unfold weekOf at 1. cbn [fst snd fold_left].
  unfold formatWeek, startWeek, WeeklyOutput.rowRead.
  cbn. reflexivity.
Qed.

Lemma flatten_reread (ending : string) (gs : list (dailyRow F * list (dailyRow F))) :
  flatten (map (weekRead ending) gs) = map (fun g => rowRead ending (fst g) (weekOf g)) gs.
Proof.
  unfold flatten. induction gs as [|g gs IH]; cbn [map flat_map]; [reflexivity|].
  now rewrite IH.
Qed.

Lemma parsed_not_blank (lines : list string) (rows : list (dailyRow F)) :
  Forall2 (fun line r => parseRow line = Some r) lines rows ->
  filter (fun line => negb (blank line)) lines = lines.
Proof.
  induction 1 as [|line r lines rows P _ IH]; cbn [filter]; [reflexivity|].
  now rewrite (parseRow_not_blank line r P), IH.
Qed.

Lemma dated_groups (rows : list (dailyRow F)) :
  Forall (fun r => dated r) rows -> Forall (fun g => dated (fst g)) (weeks rows).
Proof.
  intros D. rewrite <- (weeks_flatten rows) in D.
  induction (weeks rows) as [|g gs IH]; [constructor|].
  unfold flatten in D. cbn [flat_map rowsOf] in D.
  inversion D as [|? ? Dg Ds]; subst. constructor; [exact Dg|].
  apply IH. apply Forall_app in Ds. exact (proj2 Ds).
Qed.

Lemma reread (ending : string) (f : list string) (out : list (outputLine F)) :
  whiteSpace ending = true ->
  main f = Ok out ->
  Forall readBack out ->
  main (writtenWith str_float str_int ending out) = Ok out.
Proof.
  intros W E R.
  destruct (WeeklyMore.main_ok_dataRows py_float py_int py_isocalendar f out E)
    as [rows P].
  assert (C : chronological rows).
  { destruct (WeeklyMore.chronological_dec rows) as [C|N]; [exact C|exfalso].
    destruct (first_out_of_order rows N) as [good [prev [r [rest [-> [C L]]]]]].
    rewrite (main_out_of_order _ _ _ f good rest prev r P C L) in E.
    discriminate. }
  rewrite (main_chronological _ _ _ f rows P C) in E. injection E as <-.
  pose proof (weeks_wellGrouped rows C) as WG.
  assert (D : Forall (fun r => dated r) rows).
  { clear - P. unfold WeeklyRows.dataRows in P.
    induction P as [|line r lines rows P _ IH]; constructor; [|exact IH].
    exact (parseRow_dated line r P). }
  apply dated_groups in D.
  inversion R as [|? ? _ Rs]; subst. rewrite map_map in Rs.
  rewrite Forall_map in Rs.
  pose proof (groups_reread ending (weeks rows) W D Rs) as G.
  unfold writtenWith. cbn [map text]. rewrite !map_map. cbn [text].
  rewrite (main_rows py_float py_int py_isocalendar _
             (map (fun g => rowRead ending (fst g) (weekOf g)) (weeks rows))).
  - rewrite <- flatten_reread.
    destruct (rowsRun_wellGrouped _ (wellGrouped_reread ending _ WG)) as [a [-> Fa]].
    unfold finished. cbn [bind]. rewrite Fa, !map_map.
    apply f_equal. apply f_equal. apply map_ext. intros g.
    now rewrite weekOf_reread.
  - unfold WeeklyRows.dataRows, entries. cbn [tl].
    rewrite (parsed_not_blank _ _ G). exact G.
Qed.

End Reread.

(** X11.  The output file is a file of the input format, and converting it
    again changes nothing: when the script has written its lines, and the
    text of each written value is read back as that value by float() or
    int() and holds no comma, the script run on the lines of the output file
    writes the same lines again.  This holds for the lines as written, each
    with its carriage return and line feed, and for the lines as Python reads
    them back, each with a line feed. *)
Theorem converting_the_output_again_changes_nothing
  (F : Type) (H : PyFloat F) (py_float : string -> option F)
  (py_int : string -> option Z) (py_isocalendar : Z -> Z -> Z -> option (Z * Z * Z))
  (str_float : F -> string) (str_int : Z -> string)
  (f : list string) (out : list (outputLine F)) :
  main py_float py_int py_isocalendar f = Ok out ->
  Forall (readBack str_float str_int py_float py_int) out ->
  main py_float py_int py_isocalendar (written str_float str_int out) = Ok out /\
  main py_float py_int py_isocalendar (writtenWith str_float str_int lineFeed out)
  = Ok out.
Proof.
  intros E R. split.
  - exact (reread py_float py_int py_isocalendar str_float str_int newline f out
             eq_refl E R).
  - exact (reread py_float py_int py_isocalendar str_float str_int lineFeed f out
             eq_refl E R).
Qed.

Lemma converting_the_output_again_changes_nothing_witness :
  exists out,
    Examples.run Examples.two_weeks = Ok out /\
    Forall (readBack Printers.whole_str Printers.int_str
              Builtins.decimal_float Builtins.decimal_int) out /\
    written Printers.whole_str Printers.int_str out =
    [ headerLineText ++ newline;
      "01/02/2020,10.0,13.0,9.0,12.0,300,6" ++ newline;
      "01/06/2020,12.0,14.0,11.0,13.0,300,7" ++ newline ] /\
    Examples.run (written Printers.whole_str Printers.int_str out) = Ok out /\
    Examples.run (writtenWith Printers.whole_str Printers.int_str lineFeed out) = Ok out.
Proof.
  eexists. split; [vm_compute; reflexivity|].
  assert (R : Forall (readBack Printers.whole_str Printers.int_str
                        Builtins.decimal_float Builtins.decimal_int)
                [ headerLine;
                  weekLine {| lineDateStr := "01/02/2020"; lineOpen := 10%Q;
                              lineHigh := 13%Q; lineLow := 9%Q; lineClose := 12%Q;
                              lineVolume := 300; lineOpenInt := 6 |};
                  weekLine {| lineDateStr := "01/06/2020"; lineOpen := 12%Q;
                              lineHigh := 14%Q; lineLow := 11%Q; lineClose := 13%Q;
                              lineVolume := 300; lineOpenInt := 7 |} ]).
  { repeat apply Forall_cons; try apply Forall_nil; [exact I| |];
      (split; repeat apply Forall_cons; try apply Forall_nil;
       split; vm_compute; reflexivity). }
  split; [exact R|]. split; [vm_compute; reflexivity|].
  apply (converting_the_output_again_changes_nothing Q exact
           Builtins.decimal_float Builtins.decimal_int Builtins.gregorian_isocalendar
           Printers.whole_str Printers.int_str Examples.two_weeks);
    [vm_compute; reflexivity|exact R].
Defined.

End WeeklyOutputFacts.

(** * More on the unwrap transform: a series without jumps is left alone *)

Module EngineMore.

Import Ephemeris.

Local Open Scope Q_scope.






End EngineMore.
